(** * MallDepot: the warehouse / storefront synchronisation engine

    A shallow embedding of [app/models.py], [app/utilities/sync_utilities.py]
    and the [sync] view of [app/sync/routes.py], followed by the properties
    of the purchase applier, the delta categoriser and the sync orchestrator.

    Modelling conventions.
    - A table is the list of its rows in primary-key order, so that
      [Model.query.filter_by(...).first()] is the first match of the list.
      Primary keys and the columns no synchronisation code reads
      ([picture], [user_id], [last_updated], ...) are left out.
    - The SQLAlchemy session is a pair: the database as committed, and the
      database as the open transaction sees it.  [db.session.add] and
      attribute assignments act on the second, [commit] copies the second
      over the first, [rollback] copies the first over the second.
    - A [SQLAlchemyError] is an input: every statement block the source
      guards with [try ... except SQLAlchemyError] receives a fault marker
      saying whether, and where, the database raises.  Statements outside
      such a block are taken to succeed.
    - The network is an input as well: what [requests.get] and
      [requests.post] answer or raise.
    - A purchase object has all its keys, with an integer [quantity];
      [units_in_stock] and [units_purchased] hold integers, as the item form
      requires.  [Float] columns are carried around, never computed with;
      they are integers here.  Logging is left out. *)

From Stdlib Require Import ZArith List Ascii String Bool Lia DecimalString.
Import ListNotations.

Open Scope string_scope.
Open Scope Z_scope.

Set Implicit Arguments.

(** ** Python values *)

Definition timestamp := Z.
Definition money := Z.

(** [str(n)] for an [int]. *)
Definition str_of_int (n : Z) : string := NilZero.string_of_int (Z.to_int n).

Definition is_some {A : Type} (o : option A) : bool :=
  match o with Some _ => true | None => false end.

(** Replace the first element satisfying [p]: an attribute assignment on the
    object returned by [.first()]. *)
Fixpoint update_first {A : Type} (p : A -> bool) (f : A -> A) (l : list A) : list A :=
  match l with
  | [] => []
  | x :: r => if p x then f x :: r else x :: update_first p f r
  end.

(** ** app/models.py *)

Inductive ItemStatus := NOT_FOR_SALE | FOR_SALE.
Inductive IssueStatus := UNRESOLVED | RESOLVED.
Inductive ConnectionType := SYNC | RESET.

Definition ItemStatus_eqb (a b : ItemStatus) : bool :=
  match a, b with
  | NOT_FOR_SALE, NOT_FOR_SALE | FOR_SALE, FOR_SALE => true
  | _, _ => false
  end.

Module Vendor.
Record t := mk { name : string }.
End Vendor.

Module Item.
Record t := mk {
  code : string;
  name : string;
  description : option string;
  price_per_unit : money;
  units_in_stock : Z;
  status : ItemStatus;
  units_purchased : Z;
  requires_sync : bool;
  vendor : option Vendor.t
}.

Definition set_units_in_stock (v : Z) (i : t) : t :=
  mk (code i) (name i) (description i) (price_per_unit i) v (status i)
     (units_purchased i) (requires_sync i) (vendor i).

Definition set_units_purchased (v : Z) (i : t) : t :=
  mk (code i) (name i) (description i) (price_per_unit i) (units_in_stock i)
     (status i) v (requires_sync i) (vendor i).

Definition set_requires_sync (v : bool) (i : t) : t :=
  mk (code i) (name i) (description i) (price_per_unit i) (units_in_stock i)
     (status i) (units_purchased i) v (vendor i).
End Item.

Module DeletedItem.
Record t := mk {
  code : string;
  name : string;
  user_name : string;
  deletion_time : timestamp;
  requires_sync : bool;
  vendor_name : string;
  description : option string
}.

Definition set_requires_sync (v : bool) (d : t) : t :=
  mk (code d) (name d) (user_name d) (deletion_time d) v (vendor_name d)
     (description d).
End DeletedItem.

Module PurchaseHistory.
Record t := mk {
  purchase_code : string;
  item_code : string;
  item_name : string;
  vendor_name : string;
  quantity : Z;
  price_per_unit : money;
  total_price : money;
  purchase_time : option timestamp;
  load_time : timestamp
}.
End PurchaseHistory.

Module SyncHistory.
Record t := mk {
  remote_name : string;
  timestamp_start : timestamp;
  timestamp_end : timestamp;
  error_code : Z;
  connection_type : ConnectionType;
  updates_received : Z;
  updates_sent : Z
}.
End SyncHistory.

Module Issue.
Record t := mk {
  raised_time : timestamp;
  message : string;
  status : IssueStatus;
  solved_time : option timestamp
}.
End Issue.

(** One purchase object of the JSON array the store answers with; the fields
    are what [purchase.get(...)] reads. *)
Module Purchase.
Record t := mk {
  purchase_code : string;
  code : string;
  name : string;
  vendor_name : string;
  quantity : Z;
  price_per_unit : money;
  total_price : money;
  purchase_time : option timestamp
}.
End Purchase.

(** ** The database and the session *)

Record Database := mkDatabase {
  items : list Item.t;
  deleted_items : list DeletedItem.t;
  purchase_history : list PurchaseHistory.t;
  issues : list Issue.t;
  sync_history : list SyncHistory.t
}.

Definition with_items (l : list Item.t) (d : Database) : Database :=
  mkDatabase l (deleted_items d) (purchase_history d) (issues d) (sync_history d).

Definition with_deleted_items (l : list DeletedItem.t) (d : Database) : Database :=
  mkDatabase (items d) l (purchase_history d) (issues d) (sync_history d).

Definition with_purchase_history (l : list PurchaseHistory.t) (d : Database) : Database :=
  mkDatabase (items d) (deleted_items d) l (issues d) (sync_history d).

Definition with_issues (l : list Issue.t) (d : Database) : Database :=
  mkDatabase (items d) (deleted_items d) (purchase_history d) l (sync_history d).

Definition with_sync_history (l : list SyncHistory.t) (d : Database) : Database :=
  mkDatabase (items d) (deleted_items d) (purchase_history d) (issues d) l.

Module Session.
Record t := mk {
  committed : Database;   (* what a new session would read *)
  working : Database      (* what this session reads: committed + pending *)
}.

(** A session as a request opens it. *)
Definition open (d : Database) : t := mk d d.

Definition commit (s : t) : t := mk (working s) (working s).
Definition rollback (s : t) : t := mk (committed s) (committed s).

Definition on_working (f : Database -> Database) (s : t) : t :=
  mk (committed s) (f (working s)).

(** [db.session.add(obj)] for a new object of each table written here. *)
Definition add_purchase (p : PurchaseHistory.t) : t -> t :=
  on_working (fun d => with_purchase_history (purchase_history d ++ [p]) d).
Definition add_issue (i : Issue.t) : t -> t :=
  on_working (fun d => with_issues (issues d ++ [i]) d).
Definition add_sync_record (r : SyncHistory.t) : t -> t :=
  on_working (fun d => with_sync_history (sync_history d ++ [r]) d).
End Session.

(** Where the database raises inside one guarded block: not at all, at the
    first query, or at [db.session.commit()]. *)
Inductive db_fault := NoFault | QueryFault | CommitFault.

(** ** app/utilities/sync_utilities.py: the purchase applier *)

Definition purchase_record (now : timestamp) (item : Purchase.t) : PurchaseHistory.t :=
  PurchaseHistory.mk (Purchase.purchase_code item) (Purchase.code item)
    (Purchase.name item) (Purchase.vendor_name item) (Purchase.quantity item)
    (Purchase.price_per_unit item) (Purchase.total_price item)
    (Purchase.purchase_time item) now.

(** [update_purchase_data].  The body of the [for] returns on both of its
    paths, [return True] after the commit and [return False] in the
    [except] branch, so the rest of the list is never visited.  Nothing is
    queried in the guarded block: a fault of either kind surfaces at the
    commit. *)
Definition update_purchase_data (now : timestamp) (fault : db_fault)
    (items_to_sync : list Purchase.t) (s : Session.t) : Session.t * bool :=
  match items_to_sync with
  | [] => (s, true)
  | item :: _ =>
      let purchase := purchase_record now item in
      let s1 := Session.add_purchase purchase s in
      match fault with
      | NoFault => (Session.commit s1, true)
      | QueryFault | CommitFault => (Session.rollback s1, false)
      end
  end.

Definition find_item (c : string) (d : Database) : option Item.t :=
  find (fun i => String.eqb (Item.code i) c) (items d).

Definition find_deleted_item (c : string) (d : Database) : option DeletedItem.t :=
  find (fun i => String.eqb (DeletedItem.code i) c) (deleted_items d).

Definition not_found_message (purchase : Purchase.t) : string :=
  "Item with code " ++ Purchase.code purchase ++ " and name "
    ++ Purchase.name purchase ++ " not found.".

Definition deleted_message (c : string) (deleted_item : DeletedItem.t) : string :=
  "Purchase on deleted item: " ++ c ++ " " ++ DeletedItem.name deleted_item.

Definition out_of_stock_message (c : string) (item : Item.t) (new_stock : Z) : string :=
  "Running out of stock for: " ++ c ++ " " ++ Item.name item
    ++ ", balance is " ++ str_of_int new_stock ++ " units.".

Definition new_issue (now : timestamp) (msg : string) : Issue.t :=
  Issue.mk now msg UNRESOLVED None.

(** How one pass through the body of the [for] of [update_stock_data] ends:
    at the next iteration ([continue], or the end of the body), or in the
    [except] branch. *)
Inductive step_end := Next | Raised.

Record applier_state := mkApplier {
  session : Session.t;
  issues_raised : nat
}.

(** The live-item branch: assignments to the loaded [item], which the
    session tracks, and [db.session.add] of the issue. *)
Definition apply_to_item (now : timestamp) (purchase : Purchase.t) (item : Item.t)
    (st : applier_state) : applier_state :=
  let item_code_from_purchase := Purchase.code purchase in
  let purchased_quantity := Purchase.quantity purchase in
  let new_stock := Item.units_in_stock item - purchased_quantity in
  let is_row := fun i => String.eqb (Item.code i) item_code_from_purchase in
  let assign := fun f (s : Session.t) =>
    Session.on_working (fun d => with_items (update_first is_row f (items d)) d) s in
  let st1 :=
    if new_stock <=? 0 then
      let msg := out_of_stock_message item_code_from_purchase item new_stock in
      let s1 := Session.add_issue (new_issue now msg) (session st) in
      mkApplier (assign (Item.set_units_in_stock 0) s1) (S (issues_raised st))
    else
      mkApplier (assign (Item.set_units_in_stock new_stock) (session st))
                (issues_raised st) in
  mkApplier
    (assign (fun i => Item.set_units_purchased (Item.units_purchased i + purchased_quantity) i)
            (session st1))
    (issues_raised st1).

(** The body of the [for] of [update_stock_data]. *)
Definition stock_step (now : timestamp) (fault : db_fault) (purchase : Purchase.t)
    (st : applier_state) : step_end * applier_state :=
  let item_code_from_purchase := Purchase.code purchase in
  match fault with
  | QueryFault => (Raised, st)
  | _ =>
      let item := find_item item_code_from_purchase (Session.working (session st)) in
      let deleted_item :=
        find_deleted_item item_code_from_purchase (Session.working (session st)) in
      if negb (is_some item) && negb (is_some deleted_item) then
        (* the Issue is built and counted, and never given to the session *)
        (Next, mkApplier (session st) (S (issues_raised st)))
      else
        match deleted_item with
        | Some d =>
            let msg := deleted_message item_code_from_purchase d in
            (Next, mkApplier (Session.add_issue (new_issue now msg) (session st))
                             (S (issues_raised st)))
        | None =>
            let st1 :=
              match item with
              | Some i => apply_to_item now purchase i st
              | None => st
              end in
            match fault with
            | CommitFault => (Raised, st1)
            | _ => (Next, mkApplier (Session.commit (session st1)) (issues_raised st1))
            end
        end
  end.

Definition stock_ok_message : string := "Stock data updated successfully.".
Definition stock_failure_message : string :=
  "Failed to update stock data due to a database error.".

(** The [for] of [update_stock_data]; [faults] gives the fault of each
    iteration, none where the list is too short. *)
Fixpoint stock_loop (now : timestamp) (faults : list db_fault)
    (data_to_apply : list Purchase.t) (st : applier_state)
    : Session.t * (bool * string * nat) :=
  match data_to_apply with
  | [] => (session st, (true, stock_ok_message, issues_raised st))
  | purchase :: rest =>
      match stock_step now (hd NoFault faults) purchase st with
      | (Next, st1) => stock_loop now (tl faults) rest st1
      | (Raised, st1) =>
          (Session.rollback (session st1), (false, stock_failure_message, issues_raised st1))
      end
  end.

Definition update_stock_data (now : timestamp) (faults : list db_fault)
    (data_to_apply : list Purchase.t) (s : Session.t)
    : Session.t * (bool * string * nat) :=
  stock_loop now faults data_to_apply (mkApplier s 0).

(** ** Python objects, dictionaries and attribute access *)

Inductive pyval :=
| PNone
| PBool (b : bool)
| PInt (n : Z)
| PFloat (m : money)
| PStr (s : string)
| PStatus (st : ItemStatus)
| PTime (t : timestamp)
| PVendor (v : Vendor.t)
| PItem (i : Item.t)
| PDeletedItem (d : DeletedItem.t).

Definition py_of_option {A : Type} (f : A -> pyval) (o : option A) : pyval :=
  match o with Some a => f a | None => PNone end.

(** [==] on the values that are compared here: dictionary values against
    key columns, and columns against filter values. *)
Definition pyval_eqb (a b : pyval) : bool :=
  match a, b with
  | PNone, PNone => true
  | PBool x, PBool y => Bool.eqb x y
  | PInt x, PInt y => x =? y
  | PFloat x, PFloat y => x =? y
  | PStr x, PStr y => String.eqb x y
  | PStatus x, PStatus y => ItemStatus_eqb x y
  | PTime x, PTime y => x =? y
  | _, _ => false
  end.

(** [getattr(obj, attr, None)]. *)
Definition py_getattr (obj : pyval) (attr : string) : pyval :=
  match obj with
  | PItem i =>
      if String.eqb attr "code" then PStr (Item.code i)
      else if String.eqb attr "name" then PStr (Item.name i)
      else if String.eqb attr "description" then py_of_option PStr (Item.description i)
      else if String.eqb attr "price_per_unit" then PFloat (Item.price_per_unit i)
      else if String.eqb attr "units_in_stock" then PInt (Item.units_in_stock i)
      else if String.eqb attr "status" then PStatus (Item.status i)
      else if String.eqb attr "units_purchased" then PInt (Item.units_purchased i)
      else if String.eqb attr "requires_sync" then PBool (Item.requires_sync i)
      else if String.eqb attr "vendor" then py_of_option PVendor (Item.vendor i)
      else PNone
  | PDeletedItem d =>
      if String.eqb attr "code" then PStr (DeletedItem.code d)
      else if String.eqb attr "name" then PStr (DeletedItem.name d)
      else if String.eqb attr "user_name" then PStr (DeletedItem.user_name d)
      else if String.eqb attr "deletion_time" then PTime (DeletedItem.deletion_time d)
      else if String.eqb attr "requires_sync" then PBool (DeletedItem.requires_sync d)
      else if String.eqb attr "vendor_name" then PStr (DeletedItem.vendor_name d)
      else if String.eqb attr "description" then py_of_option PStr (DeletedItem.description d)
      else PNone
  | PVendor v => if String.eqb attr "name" then PStr (Vendor.name v) else PNone
  | _ => PNone
  end.

(** A [dict] with string keys, in insertion order. *)
Definition pydict := list (string * pyval).

Fixpoint dict_get (k : string) (d : pydict) : option pyval :=
  match d with
  | [] => None
  | (k', v) :: r => if String.eqb k' k then Some v else dict_get k r
  end.

(** [d[k] = v]. *)
Fixpoint dict_set (k : string) (v : pyval) (d : pydict) : pydict :=
  match d with
  | [] => [(k, v)]
  | (k', v') :: r => if String.eqb k' k then (k', v) :: r else (k', v') :: dict_set k v r
  end.

(** ['.' in attr] and [attr.split('.')]. *)
Definition dot : ascii := "."%char.

Fixpoint has_dot (s : string) : bool :=
  match s with
  | EmptyString => false
  | String a r => Ascii.eqb a dot || has_dot r
  end.

Fixpoint split_dot (s : string) : list string :=
  match s with
  | EmptyString => [EmptyString]
  | String a r =>
      if Ascii.eqb a dot then EmptyString :: split_dot r
      else match split_dot r with
           | h :: t => String a h :: t
           | [] => [String a EmptyString]
           end
  end.

(** The [for sub_attr in attr.split('.')] of the nested branch. *)
Fixpoint nested_getattr (nested_value : pyval) (path : list string) : pyval :=
  match path with
  | [] => nested_value
  | sub_attr :: rest =>
      match py_getattr nested_value sub_attr with
      | PNone => PNone
      | v => nested_getattr v rest
      end
  end.

(** What the source takes a [db.Model] class for: its table, its rows as
    Python objects, and assignment to a column. *)
Class Model (R : Type) := {
  query_all : Database -> list R;
  store_all : list R -> Database -> Database;
  to_py : R -> pyval;
  setattr : string -> pyval -> R -> R
}.

#[export] Instance Item_Model : Model Item.t := {
  query_all := items;
  store_all := with_items;
  to_py := PItem;
  setattr attr v i :=
    match v with
    | PBool b => if String.eqb attr "requires_sync" then Item.set_requires_sync b i else i
    | PInt n =>
        if String.eqb attr "units_in_stock" then Item.set_units_in_stock n i
        else if String.eqb attr "units_purchased" then Item.set_units_purchased n i
        else i
    | _ => i
    end
}.

#[export] Instance DeletedItem_Model : Model DeletedItem.t := {
  query_all := deleted_items;
  store_all := with_deleted_items;
  to_py := PDeletedItem;
  setattr attr v d :=
    match v with
    | PBool b => if String.eqb attr "requires_sync" then DeletedItem.set_requires_sync b d else d
    | _ => d
    end
}.

Definition column {R : Type} `{Model R} (row : R) (key : string) : pyval :=
  py_getattr (to_py row) key.

(** ** app/utilities/sync_utilities.py: the delta categoriser *)

(** The inner [for attr in attributes]. *)
Definition project {R : Type} `{Model R} (attributes : list string) (item : R) : pydict :=
  fold_left
    (fun update attr =>
       if has_dot attr then dict_set attr (nested_getattr (to_py item) (split_dot attr)) update
       else dict_set attr (column item attr) update)
    attributes [].

(** The query [model.query.filter_by] with the keyword arguments as equalities. *)
Definition filter_by {R : Type} `{Model R} (filters : list (string * pyval)) (row : R) : bool :=
  forallb (fun kv => pyval_eqb (column row (fst kv)) (snd kv)) filters.

Definition prepare_updates {R : Type} `{Model R} (attributes : list string)
    (filters : list (string * pyval)) (d : Database) : list pydict :=
  map (project attributes) (filter (filter_by filters) (query_all d)).

(** A keyword argument of [prepare_updates_advanced]: a plain value, or a
    tuple of an operator and a value. *)
Inductive filter_value :=
| Simple (v : pyval)
| Complex (op : string) (val : pyval).

(** [column.op(op)(val)] for the comparison operators, on integer columns. *)
Definition sql_op (op : string) (a b : pyval) : bool :=
  match a, b with
  | PInt x, PInt y =>
      if String.eqb op "<=" then x <=? y
      else if String.eqb op ">" then x >? y
      else if String.eqb op "<" then x <? y
      else if String.eqb op ">=" then x >=? y
      else false
  | _, _ => false
  end.

Definition advanced_filter {R : Type} `{Model R} (filters : list (string * filter_value))
    (row : R) : bool :=
  forallb
    (fun kv =>
       match snd kv with
       | Complex op val => sql_op op (column row (fst kv)) val
       | Simple v => pyval_eqb (column row (fst kv)) v
       end)
    filters.

Definition prepare_updates_advanced {R : Type} `{Model R} (attributes : list string)
    (filters : list (string * filter_value)) (d : Database) : list pydict :=
  map (project attributes) (filter (advanced_filter filters) (query_all d)).

(** ** app/utilities/sync_utilities.py: transport *)

(** A parsed JSON body.  Fractional numbers are left out. *)
#[warnings="-register-all"] Inductive json :=
| JNull
| JBool (b : bool)
| JInt (n : Z)
| JStr (s : string)
| JList (l : list json)
| JDict (d : list (string * json)).

(** What a [requests] call comes back with: a response, of which the code
    reads [status_code], [text] and [json()], or one of the exceptions the
    code catches. *)
Inductive http_result (B : Type) :=
| Responded (status_code : Z) (text : string) (body : B)
| ConnectionError
| Timeout
| RequestException (e : string).

Arguments ConnectionError {B}.
Arguments Timeout {B}.
Arguments RequestException {B} e.

(** [download_data]: success flag, data or [None], message. *)
Definition download_data {B : Type} (response : http_result B) : bool * option B * string :=
  match response with
  | Responded status_code text body =>
      if status_code =? 200 then (true, Some body, "Connection to store OK.")
      else (false, None, "Error " ++ str_of_int status_code ++ ": " ++ text)
  | ConnectionError => (false, None, "Failed to connect to the server.")
  | Timeout => (false, None, "Request timed out.")
  | RequestException e => (false, None, "An error occurred: " ++ e)
  end.

(** [upload_data]: [response.json()] on status 200, [None] otherwise. *)
Definition upload_data (response : http_result json) : option json :=
  match response with
  | Responded status_code _ body => if status_code =? 200 then Some body else None
  | ConnectionError | Timeout | RequestException _ => None
  end.

(** Truth values, as [if x] and [not x] take them. *)
Definition json_truthy (j : json) : bool :=
  match j with
  | JNull => false
  | JBool b => b
  | JInt n => negb (n =? 0)
  | JStr s => match s with EmptyString => false | String _ _ => true end
  | JList l => match l with [] => false | _ => true end
  | JDict d => match d with [] => false | _ => true end
  end.

Definition result_truthy (r : option json) : bool :=
  match r with
  | None => false
  | Some j => json_truthy j
  end.

Definition list_truthy {A : Type} (l : option (list A)) : bool :=
  match l with
  | Some (_ :: _) => true
  | _ => false
  end.

(** A tuple of three elements is not empty, hence true. *)
Definition tuple3_truthy {A B C : Type} (t : A * B * C) : bool := true.

(** ** app/utilities/sync_utilities.py: the flag reconciler *)

Module OperationResult.
Definition SUCCESS : Z := 0.
Definition FAILURE : Z := 1.
Definition NOT_PERFORMED : Z := 2.

Record t := mk {
  http_response : Z;
  result_code : Z;
  result_message : string;
  deleted_count : nat;
  updated_count : nat;
  added_count : nat;
  erroneous_count : nat;
  not_found_count : nat
}.

Definition init : t := mk 500 NOT_PERFORMED "Operation not performed" 0 0 0 0 0.

(** [update(result_code=..., updated_count=..., not_found_count=...)]. *)
Definition update_counts (code : Z) (updated not_found : nat) (r : t) : t :=
  mk 500 code (result_message r) (deleted_count r) updated (added_count r)
     (erroneous_count r) not_found.

(** [update(result_code=...)]. *)
Definition update (code : Z) (r : t) : t :=
  mk 500 code (result_message r) (deleted_count r) (updated_count r) (added_count r)
     (erroneous_count r) (not_found_count r).
End OperationResult.

Record reconciler_state := mkReconciler {
  rec_session : Session.t;
  records_updated : nat;
  records_not_found : nat;
  erroneous_inputs : nat
}.

(** The body of the [for] of [set_single_value_on_list]. *)
Definition set_single_value_step {R : Type} `{Model R}
    (key_col_target key_col_input target_field_to_update : string) (new_value : pyval)
    (st : reconciler_state) (item : pydict) : reconciler_state :=
  match dict_get key_col_input item with
  | None =>
      mkReconciler (rec_session st) (records_updated st) (records_not_found st)
                   (S (erroneous_inputs st))
  | Some search_value =>
      let is_row := fun r : R => pyval_eqb (column r key_col_target) search_value in
      match find is_row (query_all (Session.working (rec_session st))) with
      | Some _ =>
          let assign := fun d =>
            store_all (update_first is_row (setattr target_field_to_update new_value)
                                    (query_all d)) d in
          mkReconciler (Session.on_working assign (rec_session st))
                       (S (records_updated st)) (records_not_found st) (erroneous_inputs st)
      | None =>
          mkReconciler (rec_session st) (records_updated st) (S (records_not_found st))
                       (erroneous_inputs st)
      end
  end.

(** [set_single_value_on_list].  A fault anywhere in the guarded block ends in
    the same [rollback]. *)
Definition set_single_value_on_list {R : Type} `{Model R} (fault : db_fault)
    (key_col_target : string) (items_to_update : list pydict)
    (key_col_input target_field_to_update : string) (new_value : pyval)
    (s : Session.t) : Session.t * OperationResult.t :=
  let result := OperationResult.init in
  match fault with
  | NoFault =>
      let st :=
        fold_left
          (set_single_value_step (R := R) key_col_target key_col_input
                                 target_field_to_update new_value)
          items_to_update (mkReconciler s 0 0 0) in
      (Session.commit (rec_session st),
       OperationResult.update_counts OperationResult.SUCCESS (records_updated st)
                                     (records_not_found st) result)
  | QueryFault | CommitFault =>
      (Session.rollback s, OperationResult.update OperationResult.FAILURE result)
  end.

(** ** app/sync/routes.py: the sync run *)

(** [sync_data], a dictionary with these four keys. *)
Record sync_payload := mkPayload {
  deleted : list pydict;
  not_for_sale : list pydict;
  out_of_stock : list pydict;
  stock_updates : list pydict
}.

Inductive page := sync_failure | sync_success.

(** Everything a run reads from outside the database. *)
Record World := mkWorld {
  get_response : http_result (list Purchase.t);
  post_response : http_result json;
  purchase_fault : db_fault;
  stock_faults : list db_fault;
  reset_deleted_fault : db_fault;
  reset_out_of_stock_fault : db_fault;
  reset_not_for_sale_fault : db_fault;
  reset_stock_updates_fault : db_fault;
  connection_start_time : timestamp;
  apply_time : timestamp;
  connection_end_time : timestamp
}.

(** What a run leaves behind: the session at the end of the request, the
    page rendered, and the payload given to [upload_data], if it was called. *)
Record SyncRun := mkRun {
  final : Session.t;
  rendered : page;
  uploaded : option sync_payload
}.

Definition sync_record (start finish : timestamp) (error_code : Z) : SyncHistory.t :=
  SyncHistory.mk "Storefront" start finish error_code SYNC 0 0.

(** The keyword filters of the four queries. *)
Definition deleted_filters : list (string * pyval) :=
  [("requires_sync", PBool true)].
Definition not_for_sale_filters : list (string * pyval) :=
  [("requires_sync", PBool true); ("status", PStatus NOT_FOR_SALE)].
Definition out_of_stock_filters : list (string * filter_value) :=
  [("requires_sync", Simple (PBool true)); ("status", Simple (PStatus FOR_SALE));
   ("units_in_stock", Complex "<=" (PInt 0))].
Definition stock_updates_filters : list (string * filter_value) :=
  [("requires_sync", Simple (PBool true)); ("status", Simple (PStatus FOR_SALE));
   ("units_in_stock", Complex ">" (PInt 0))].

Definition stock_updates_attributes : list string :=
  ["code"; "name"; "description"; "vendor.name"; "price_per_unit"; "units_in_stock"].

Definition build_sync_data (d : Database) : sync_payload :=
  mkPayload
    (prepare_updates (R := DeletedItem.t) ["code"; "name"] deleted_filters d)
    (prepare_updates (R := Item.t) ["code"; "name"] not_for_sale_filters d)
    (prepare_updates_advanced (R := Item.t) ["code"; "name"] out_of_stock_filters d)
    (prepare_updates_advanced (R := Item.t) stock_updates_attributes stock_updates_filters d).

(** The download and apply part of [sync]: the session and [error_code] at
    the [if error_code != 0]. *)
Definition download_and_apply (w : World) (s : Session.t) : Session.t * Z :=
  let error_code := 0 in
  let '(download_success, webshop_purchases, _) := download_data (get_response w) in
  if download_success then
    if list_truthy webshop_purchases then
      let purchases := match webshop_purchases with Some l => l | None => [] end in
      let '(s1, stored) := update_purchase_data (apply_time w) (purchase_fault w) purchases s in
      let error_code := if negb stored then 2 else error_code in
      let '(s2, applied) := update_stock_data (apply_time w) (stock_faults w) purchases s1 in
      let error_code := if negb (tuple3_truthy applied) then 3 else error_code in
      (s2, error_code)
    else (s, error_code)
  else (s, 1).

Definition reset_flags (w : World) (sync_data : sync_payload) (s : Session.t) : Session.t :=
  let clear := PBool false in
  let s1 := fst (set_single_value_on_list (R := DeletedItem.t) (reset_deleted_fault w)
                   "code" (deleted sync_data) "code" "requires_sync" clear s) in
  let s2 := fst (set_single_value_on_list (R := Item.t) (reset_out_of_stock_fault w)
                   "code" (out_of_stock sync_data) "code" "requires_sync" clear s1) in
  let s3 := fst (set_single_value_on_list (R := Item.t) (reset_not_for_sale_fault w)
                   "code" (not_for_sale sync_data) "code" "requires_sync" clear s2) in
  fst (set_single_value_on_list (R := Item.t) (reset_stock_updates_fault w)
         "code" (stock_updates sync_data) "code" "requires_sync" clear s3).

Definition write_audit (w : World) (error_code : Z) (s : Session.t) : Session.t :=
  Session.commit
    (Session.add_sync_record
       (sync_record (connection_start_time w) (connection_end_time w) error_code) s).

(** [sync], on the database as the request finds it. *)
Definition sync (w : World) (db : Database) : SyncRun :=
  let '(s, error_code) := download_and_apply w (Session.open db) in
  if negb (error_code =? 0) then
    mkRun (write_audit w error_code s) sync_failure None
  else
    let sync_data := build_sync_data (Session.working s) in
    let upload_result := upload_data (post_response w) in
    if negb (result_truthy upload_result) then
      let error_code := 1 in
      mkRun (write_audit w error_code s) sync_failure (Some sync_data)
    else
      let s1 := reset_flags w sync_data s in
      mkRun (write_audit w error_code s1) sync_success (Some sync_data).

Definition database_after (r : SyncRun) : Database := Session.committed (final r).

(** ** The four delta categories *)

Inductive category := Deleted | NotForSale | OutOfStock | StockUpdates.

(** A row of one of the two tables the categoriser reads. *)
Inductive record :=
| StockItem (i : Item.t)
| DeletedItemRecord (d : DeletedItem.t).

Definition pending (r : record) : bool :=
  match r with
  | StockItem i => Item.requires_sync i
  | DeletedItemRecord d => DeletedItem.requires_sync d
  end.

(** Whether the query of category [c] selects row [r]: the filter of the
    call in [sync] that fills the category, on the table that call reads. *)
Definition in_category (c : category) (r : record) : bool :=
  match c, r with
  | Deleted, DeletedItemRecord d => filter_by deleted_filters d
  | NotForSale, StockItem i => filter_by not_for_sale_filters i
  | OutOfStock, StockItem i => advanced_filter out_of_stock_filters i
  | StockUpdates, StockItem i => advanced_filter stock_updates_filters i
  | _, _ => false
  end.

(** ** What the applier and a failed run leave alone *)

Definition item_flags (d : Database) : list (string * bool) :=
  map (fun i => (Item.code i, Item.requires_sync i)) (items d).

Definition deleted_flags (d : Database) : list (string * bool) :=
  map (fun x => (DeletedItem.code x, DeletedItem.requires_sync x)) (deleted_items d).

(** [d'] has the rows of [d] with their codes and sync flags, the deleted
    items of [d] and its sync history. *)
Definition same_frame (d d' : Database) : Prop :=
  item_flags d' = item_flags d
  /\ deleted_items d' = deleted_items d
  /\ sync_history d' = sync_history d.

Definition session_frame (d : Database) (s : Session.t) : Prop :=
  same_frame d (Session.committed s) /\ same_frame d (Session.working s).

(** Both views of the session have the audit rows [h]. *)
Definition history_frame (h : list SyncHistory.t) (s : Session.t) : Prop :=
  sync_history (Session.committed s) = h /\ sync_history (Session.working s) = h.

(** The failure the download reports: a connectivity error, or a status
    other than 200. *)
Definition download_failed {B : Type} (response : http_result B) : Prop :=
  match response with
  | Responded status_code _ _ => status_code <> 200
  | ConnectionError | Timeout | RequestException _ => True
  end.

(** The pushes that do not deliver: a connectivity error, a status other
    than 200, or status 200 with a body that is not true. *)
Definition push_failed (response : http_result json) : Prop :=
  match response with
  | Responded status_code _ body => status_code <> 200 \/ json_truthy body = false
  | ConnectionError | Timeout | RequestException _ => True
  end.

(** ** Scenario data *)

Module Scenario.
(** A live item with ten units on hand, delivered by an earlier sync. *)
Definition widget : Item.t :=
  Item.mk "A001" "Widget" (Some "A widget") 5 10 FOR_SALE 0 false
          (Some (Vendor.mk "Acme")).

(** A tombstone with the code of [widget]: the item was deleted once and
    entered again. *)
Definition tombstone : DeletedItem.t :=
  DeletedItem.mk "A001" "Widget (old)" "operator" 1 true "Acme" None.

Definition order (purchase_code code : string) (quantity : Z) : Purchase.t :=
  Purchase.mk purchase_code code "Widget" "Acme" quantity 5 (5 * quantity) (Some 3).

Definition warehouse : Database := mkDatabase [widget] [] [] [] [].
Definition warehouse_with_tombstone : Database :=
  mkDatabase [widget] [tombstone] [] [] [].
Definition warehouse_pending : Database :=
  mkDatabase [Item.set_requires_sync true widget] [tombstone] [] [] [].

Definition accepted : http_result json :=
  Responded 200 "ok" (JDict [("result_code", JInt 0)]).

(** A run starting at 100 and ending at 102, with the given answers of the
    store and the given faults of the applier. *)
Definition world (get_response : http_result (list Purchase.t))
    (post_response : http_result json) (stock_faults : list db_fault) : World :=
  mkWorld get_response post_response NoFault stock_faults
          NoFault NoFault NoFault NoFault 100 101 102.
End Scenario.

(** ** What the applier may change in an item *)

(** The columns of an item other than [units_in_stock] and
    [units_purchased]. *)
Definition item_static (i : Item.t)
    : string * string * option string * money * ItemStatus * bool * option Vendor.t :=
  (Item.code i, Item.name i, Item.description i, Item.price_per_unit i,
   Item.status i, Item.requires_sync i, Item.vendor i).

Definition stock_nonneg (d : Database) : Prop :=
  Forall (fun i => 0 <= Item.units_in_stock i) (items d).

(** The rows that do not belong to the stock tables. *)
Definition ledger (d : Database)
    : list DeletedItem.t * list PurchaseHistory.t * list SyncHistory.t :=
  (deleted_items d, purchase_history d, sync_history d).

(** Row by row: the same code, and no flag raised. *)
Definition flags_not_raised (before after : list (string * bool)) : Prop :=
  Forall2 (fun b a => fst a = fst b /\ (snd a = true -> snd b = true)) before after.

(** Whether a delivered dictionary carries the code [c] under ["code"]. *)
Definition carries_code (c : string) (item : pydict) : bool :=
  match dict_get "code" item with
  | Some v => pyval_eqb (PStr c) v
  | None => false
  end.

(** Both views of the session show [v] through [view]. *)
Definition session_view {T : Type} (view : Database -> T) (v : T) (s : Session.t) : Prop :=
  view (Session.committed s) = v /\ view (Session.working s) = v.

(** The columns and tables [update_stock_data] has no business with. *)
Definition outside_units (d : Database)
    : list (string * string * option string * money * ItemStatus * bool * option Vendor.t)
      * (list DeletedItem.t * list PurchaseHistory.t * list SyncHistory.t) :=
  (map item_static (items d), ledger d).

(** What one delivered dictionary does to the rows of the target table in
    [set_single_value_on_list], with the arguments [sync] and
    [webshop_reset] give: the first row of that code is cleared. *)
Definition clear_flag_of {R : Type} `{Model R} (rows : list R) (item : pydict) : list R :=
  match dict_get "code" item with
  | None => rows
  | Some v =>
      update_first (fun r => pyval_eqb (column r "code") v)
                   (setattr "requires_sync" (PBool false)) rows
  end.

Definition clear_flags_of {R : Type} `{Model R} (items_to_update : list pydict)
    (rows : list R) : list R :=
  fold_left clear_flag_of items_to_update rows.

(** Every row whose code is delivered is cleared. *)
Definition cleared_rows {R : Type} `{Model R} (key : R -> string)
    (items_to_update : list pydict) (rows : list R) : list R :=
  map (fun r => if existsb (carries_code (key r)) items_to_update
                then setattr "requires_sync" (PBool false) r else r) rows.

(** The tables beside the items, and beside the deleted items. *)
Definition beside_items (d : Database)
    : list DeletedItem.t * list PurchaseHistory.t * list Issue.t * list SyncHistory.t :=
  (deleted_items d, purchase_history d, issues d, sync_history d).

Definition beside_deleted_items (d : Database)
    : list Item.t * list PurchaseHistory.t * list Issue.t * list SyncHistory.t :=
  (items d, purchase_history d, issues d, sync_history d).

(** In both views of the session every row of [db] is there with its code,
    and no flag is raised. *)
Definition no_flag_raised (db : Database) (s : Session.t) : Prop :=
  flags_not_raised (item_flags db) (item_flags (Session.committed s))
  /\ flags_not_raised (item_flags db) (item_flags (Session.working s))
  /\ flags_not_raised (deleted_flags db) (deleted_flags (Session.committed s))
  /\ flags_not_raised (deleted_flags db) (deleted_flags (Session.working s)).

(** The value [project] stores under [attr]. *)
Definition projected {R : Type} `{Model R} (item : R) (attr : string) : pyval :=
  if has_dot attr then nested_getattr (to_py item) (split_dot attr) else column item attr.

(** ** app/utilities/sync_utilities.py: build_api_url *)

(** [s.rstrip('/')]. *)
Fixpoint rstrip_slash (s : string) : string :=
  match s with
  | EmptyString => EmptyString
  | String a r =>
      match rstrip_slash r with
      | EmptyString => if Ascii.eqb a "/"%char then EmptyString else String a EmptyString
      | r' => String a r'
      end
  end.

(** [n] times ["/"]. *)
Fixpoint slashes (n : nat) : string :=
  match n with
  | O => EmptyString
  | S k => String "/"%char (slashes k)
  end.

(** The keys of [current_app.config] that [build_api_url] reads; [None] for
    a key that is not set. *)
Record Config := mkConfig {
  USE_HTTPS : option bool;
  DEFAULT_STORE_IPV4 : option string;
  DEFAULT_STORE_PORT : option string;
  DEFAULT_API_ENDPOINT : option string
}.

Definition config_get {A : Type} (value : option A) (default : A) : A :=
  match value with Some v => v | None => default end.

(** [build_api_url]; an argument is [None] when the caller leaves it out.
    The port is given as the text the f-string prints for it. *)
Definition build_api_url (config : Config) (protocol ipv4_address port api_endpoint : option string)
    : string :=
  let protocol :=
    match protocol with
    | Some p => p
    | None => if config_get (USE_HTTPS config) false then "https" else "http"
    end in
  let ipv4_address :=
    match ipv4_address with
    | Some a => a
    | None => config_get (DEFAULT_STORE_IPV4 config) "127.0.0.1"
    end in
  let port :=
    match port with
    | Some p => p
    | None => config_get (DEFAULT_STORE_PORT config) "5050"
    end in
  let api_endpoint :=
    match api_endpoint with
    | Some e => e
    | None => config_get (DEFAULT_API_ENDPOINT config) EmptyString
    end in
  rstrip_slash (protocol ++ "://" ++ ipv4_address ++ ":" ++ port ++ "/" ++ api_endpoint).

(** The values of [config.py]. *)
Definition shipped_config : Config :=
  mkConfig (Some true) (Some "127.0.0.1") (Some "5050") (Some EmptyString).

(** ** app/sync/routes.py: the store reset *)

Definition reset_filters : list (string * filter_value) :=
  [("status", Simple (PStatus FOR_SALE)); ("units_in_stock", Complex ">" (PInt 0))].

Record ResetWorld := mkResetWorld {
  wipe_response : http_result unit;
  restock_response : http_result json;
  restock_flags_fault : db_fault;
  reset_start_time : timestamp;
  reset_end_time : timestamp
}.

(** What a reset leaves behind: the session at the end of the request, the
    message of the page, and the list sent under [stock_updates], if
    [upload_data] was called. *)
Record ResetRun := mkResetRun {
  reset_final : Session.t;
  reset_message : string;
  reset_uploaded : option (list pydict)
}.

Definition reset_record (start finish : timestamp) (error_code : Z) : SyncHistory.t :=
  SyncHistory.mk "Storefront" start finish error_code RESET 0 0.

Definition wipe_non_200_message : string :=
  "ERROR: Non-200 response from webshop. Could not reset webshop.".
Definition wipe_unreachable_message : string :=
  "ERROR: Could not connect to webshop. Is the webshop server running?".
Definition reset_ok_message : string := "Store reset successful.".
Definition restock_failed_message : string :=
  "ERROR: could not upload data to store after reset.".

(** Step 1 of [webshop_reset]: [error_code] and [message] after the [try].
    The [except] catches the connection error only; any other exception
    leaves the view, which is [None] here. *)
Definition wipe_store (response : http_result unit) : option (Z * string) :=
  match response with
  | Responded status_code _ _ =>
      if negb (status_code =? 200) then Some (1, wipe_non_200_message)
      else Some (0, reset_ok_message)
  | ConnectionError => Some (2, wipe_unreachable_message)
  | Timeout | RequestException _ => None
  end.

Definition write_reset_audit (w : ResetWorld) (error_code : Z) (s : Session.t) : Session.t :=
  Session.commit
    (Session.add_sync_record
       (reset_record (reset_start_time w) (reset_end_time w) error_code) s).

(** [webshop_reset], on the database as the request finds it. *)
Definition webshop_reset (w : ResetWorld) (db : Database) : option ResetRun :=
  match wipe_store (wipe_response w) with
  | None => None
  | Some (error_code, message) =>
      let s := Session.open db in
      if negb (error_code =? 0) then
        Some (mkResetRun (write_reset_audit w error_code s) message None)
      else
        let item_updates :=
          prepare_updates_advanced (R := Item.t) stock_updates_attributes reset_filters
                                   (Session.working s) in
        let upload_result := upload_data (restock_response w) in
        if negb (result_truthy upload_result) then
          Some (mkResetRun (write_reset_audit w 1 s) restock_failed_message
                           (Some item_updates))
        else
          let s1 := fst (set_single_value_on_list (R := Item.t) (restock_flags_fault w)
                           "code" item_updates "code" "requires_sync" (PBool false) s) in
          Some (mkResetRun (write_reset_audit w error_code s1) reset_ok_message
                           (Some item_updates))
  end.

Definition reset_database_after (r : ResetRun) : Database :=
  Session.committed (reset_final r).

(** For sale, with stock on hand. *)
Definition for_sale_in_stock (i : Item.t) : bool :=
  ItemStatus_eqb (Item.status i) FOR_SALE && (Item.units_in_stock i >? 0).

(** ** app/models.py: issues; app/stock/routes.py: the views on rows *)

Definition is_resolved (i : Issue.t) : bool :=
  match Issue.status i with RESOLVED => true | UNRESOLVED => false end.

Definition resolve_issue (now : timestamp) (i : Issue.t) : Issue.t :=
  Issue.mk (Issue.raised_time i) (Issue.message i) RESOLVED (Some now).

Definition reopen_issue (i : Issue.t) : Issue.t :=
  Issue.mk (Issue.raised_time i) (Issue.message i) UNRESOLVED (Issue.solved_time i).

(** Replace the row at position [n]. *)
Fixpoint update_nth {A : Type} (n : nat) (f : A -> A) (l : list A) : list A :=
  match n, l with
  | _, [] => []
  | O, x :: r => f x :: r
  | S k, x :: r => x :: update_nth k f r
  end.

(** Drop the row at position [n]. *)
Fixpoint remove_nth {A : Type} (n : nat) (l : list A) : list A :=
  match n, l with
  | _, [] => []
  | O, _ :: r => r
  | S k, x :: r => x :: remove_nth k r
  end.

(** How a view on one row ends: [get_or_404] finds no row, an exception the
    view does not catch, or a redirect carrying the outcome. *)
Inductive view_result :=
| NotFound404
| Unhandled
| Redirected (success : bool) (d : Database).

(** [resolve_issue_view]; the row of primary key [issue_id] is the row at
    that position of the table. *)
Definition resolve_issue_view (now : timestamp) (fault : db_fault) (issue_id : nat)
    (db : Database) : view_result :=
  match nth_error (issues db) issue_id with
  | None => NotFound404
  | Some issue_record =>
      let s := Session.open db in
      let s1 :=
        if negb (is_resolved issue_record) then
          Session.on_working
            (fun d => with_issues (update_nth issue_id (resolve_issue now) (issues d)) d) s
        else s in
      match fault with
      | NoFault => Redirected true (Session.committed (Session.commit s1))
      | QueryFault | CommitFault => Redirected false (Session.committed (Session.rollback s1))
      end
  end.

(** [delete_item]; [user_name] is the name of the user logged in.
    [item.vendor.name] is read before the [try]: an item without a vendor
    ends the view in an [AttributeError]. *)
Definition delete_item (now : timestamp) (user_name : string) (fault : db_fault)
    (item_id : nat) (db : Database) : view_result :=
  match nth_error (items db) item_id with
  | None => NotFound404
  | Some item =>
      match Item.vendor item with
      | None => Unhandled
      | Some vendor =>
          let deleted_item :=
            DeletedItem.mk (Item.code item) (Item.name item) user_name now true
                           (Vendor.name vendor) None in
          let s := Session.open db in
          let s1 :=
            Session.on_working
              (fun d => with_deleted_items (deleted_items d ++ [deleted_item]) d) s in
          let s2 :=
            Session.on_working (fun d => with_items (remove_nth item_id (items d)) d) s1 in
          match fault with
          | NoFault => Redirected true (Session.committed (Session.commit s2))
          | QueryFault | CommitFault =>
              Redirected false (Session.committed (Session.rollback s2))
          end
      end
  end.

(** * Properties *)

(** ** Lists and sessions *)

Lemma find_update_first {A : Type} (p : A -> bool) (f : A -> A) (l : list A) (x : A) :
  find p l = Some x -> p (f x) = true -> find p (update_first p f l) = Some (f x).
Proof.
  intros Hfind Hkeep. induction l as [|y r IH]; simpl in *; [discriminate|].
  destruct (p y) eqn:Hy.
  - injection Hfind as ->. simpl. now rewrite Hkeep.
  - simpl. rewrite Hy. now apply IH.
Qed.

Lemma map_update_first {A B : Type} (g : A -> B) (p : A -> bool) (f : A -> A) (l : list A) :
  (forall x, g (f x) = g x) -> map g (update_first p f l) = map g l.
Proof.
  intros Hg. induction l as [|y r IH]; simpl; [reflexivity|].
  destruct (p y); simpl; [now rewrite Hg | now rewrite IH].
Qed.

Lemma same_frame_refl (d : Database) : same_frame d d.
Proof. repeat split. Qed.

Lemma session_frame_open (d : Database) : session_frame d (Session.open d).
Proof. split; apply same_frame_refl. Qed.

Lemma session_frame_commit (d : Database) (s : Session.t) :
  session_frame d s -> session_frame d (Session.commit s).
Proof. intros [_ Hw]. now split. Qed.

Lemma session_frame_rollback (d : Database) (s : Session.t) :
  session_frame d s -> session_frame d (Session.rollback s).
Proof. intros [Hc _]. now split. Qed.

Lemma session_frame_on_working (d : Database) (f : Database -> Database) (s : Session.t) :
  (forall x, same_frame x (f x)) ->
  session_frame d s -> session_frame d (Session.on_working f s).
Proof.
  intros Hf [Hc (Hi & Hd & Hs)]. split; [exact Hc|].
  destruct (Hf (Session.working s)) as (Hi' & Hd' & Hs'). simpl.
  repeat split; congruence.
Qed.

Lemma session_frame_add_issue (d : Database) (i : Issue.t) (s : Session.t) :
  session_frame d s -> session_frame d (Session.add_issue i s).
Proof. apply session_frame_on_working. intros x. repeat split. Qed.

Lemma session_frame_add_purchase (d : Database) (p : PurchaseHistory.t) (s : Session.t) :
  session_frame d s -> session_frame d (Session.add_purchase p s).
Proof. apply session_frame_on_working. intros x. repeat split. Qed.

(** An assignment to a column other than [code] and [requires_sync]. *)
Lemma session_frame_assign (d : Database) (p : Item.t -> bool) (f : Item.t -> Item.t)
    (s : Session.t) :
  (forall i, Item.code (f i) = Item.code i) ->
  (forall i, Item.requires_sync (f i) = Item.requires_sync i) ->
  session_frame d s ->
  session_frame d
    (Session.on_working (fun x => with_items (update_first p f (items x)) x) s).
Proof.
  intros Hcode Hflag. apply session_frame_on_working. intros x.
  repeat split. unfold item_flags. simpl. apply map_update_first.
  intros i. now rewrite Hcode, Hflag.
Qed.

(** ** The purchase applier leaves codes and flags alone *)

Lemma apply_to_item_frame (d : Database) (now : timestamp) (purchase : Purchase.t)
    (item : Item.t) (st : applier_state) :
  session_frame d (session st) ->
  session_frame d (session (apply_to_item now purchase item st)).
Proof.
  intros H. unfold apply_to_item.
  destruct (Item.units_in_stock item - Purchase.quantity purchase <=? 0); simpl;
    repeat first [ apply session_frame_assign; [reflexivity | reflexivity | ]
                 | apply session_frame_add_issue ]; exact H.
Qed.

Lemma stock_step_frame (d : Database) (now : timestamp) (fault : db_fault)
    (purchase : Purchase.t) (st : applier_state) :
  session_frame d (session st) ->
  session_frame d (session (snd (stock_step now fault purchase st))).
Proof.
  intros H. unfold stock_step.
  assert (Hbody : forall o : option Item.t,
            session_frame d (session match o with
                                     | Some i => apply_to_item now purchase i st
                                     | None => st
                                     end)).
  { intros [i|]; [now apply apply_to_item_frame | exact H]. }
  destruct fault; simpl; try exact H;
    destruct (negb _ && negb _); simpl; try exact H;
    destruct (find_deleted_item _ _); simpl;
    try (now apply session_frame_add_issue);
    try (apply session_frame_commit); apply Hbody.
Qed.

Lemma stock_loop_frame (d : Database) (now : timestamp) (data : list Purchase.t) :
  forall (faults : list db_fault) (st : applier_state),
    session_frame d (session st) ->
    session_frame d (fst (stock_loop now faults data st)).
Proof.
  induction data as [|purchase rest IH]; intros faults st H; simpl; [exact H|].
  pose proof (@stock_step_frame d now (hd NoFault faults) purchase st H) as Hstep.
  destruct (stock_step now (hd NoFault faults) purchase st) as [[|] st1]; simpl in *.
  - now apply IH.
  - now apply session_frame_rollback.
Qed.

Lemma update_stock_data_frame (d : Database) (now : timestamp) (faults : list db_fault)
    (data : list Purchase.t) (s : Session.t) :
  session_frame d s -> session_frame d (fst (update_stock_data now faults data s)).
Proof. intros H. unfold update_stock_data. now apply stock_loop_frame. Qed.

Lemma update_purchase_data_frame (d : Database) (now : timestamp) (fault : db_fault)
    (data : list Purchase.t) (s : Session.t) :
  session_frame d s -> session_frame d (fst (update_purchase_data now fault data s)).
Proof.
  intros H. unfold update_purchase_data. destruct data as [|item rest]; [exact H|].
  destruct fault; simpl;
    first [ apply session_frame_commit | apply session_frame_rollback ];
    now apply session_frame_add_purchase.
Qed.

Lemma download_and_apply_frame (w : World) (d : Database) :
  session_frame d (fst (download_and_apply w (Session.open d))).
Proof.
  unfold download_and_apply.
  destruct (download_data (get_response w)) as [[ok purchases] msg].
  destruct ok; [|apply session_frame_open].
  destruct (list_truthy purchases); [|apply session_frame_open].
  pose proof (@update_purchase_data_frame d (apply_time w) (purchase_fault w)
                match purchases with Some l => l | None => [] end
                (Session.open d) (session_frame_open d)) as H1.
  destruct (update_purchase_data _ _ _ _) as [s1 stored]. simpl in H1.
  pose proof (@update_stock_data_frame d (apply_time w) (stock_faults w)
                match purchases with Some l => l | None => [] end s1 H1) as H2.
  destruct (update_stock_data _ _ _ _) as [s2 applied]. exact H2.
Qed.

(** ** The purchase applier, event by event *)

Lemma update_purchase_data_first_only (now : timestamp) (fault : db_fault)
    (item : Purchase.t) (rest : list Purchase.t) (s : Session.t) :
  update_purchase_data now fault (item :: rest) s = update_purchase_data now fault [item] s.
Proof. reflexivity. Qed.

(** C1.  A batch of two purchase events, no database fault: the applier
    reports success, and the purchase history holds the first event only;
    the second event is never stored. *)
Example update_purchase_data_drops_later_events :
  let batch := [Scenario.order "P1" "A001" 3; Scenario.order "P2" "A001" 2] in
  let r := update_purchase_data 101 NoFault batch (Session.open Scenario.warehouse) in
  snd r = true
  /\ purchase_history (Session.committed (fst r))
     = [purchase_record 101 (Scenario.order "P1" "A001" 3)]
  /\ purchase_history (Session.working (fst r))
     = [purchase_record 101 (Scenario.order "P1" "A001" 3)].
Proof. repeat split. Qed.

(** C2.  A purchase of a code that is neither live nor deleted: the applier
    counts one issue, and the session is as it was; no row of the issues
    table exists, pending or committed. *)
Example update_stock_data_not_found_issue_not_stored :
  let r := update_stock_data 101 [] [Scenario.order "P1" "Z999" 1]
                             (Session.open Scenario.warehouse) in
  snd r = (true, stock_ok_message, 1%nat)
  /\ fst r = Session.open Scenario.warehouse
  /\ issues (Session.working (fst r)) = []
  /\ issues (Session.committed (fst r)) = [].
Proof. repeat split. Qed.

(** C3.  A purchase of three units of an item whose flag is false: quantity
    and purchased-units counter change, and the flag is still false. *)
Example update_stock_data_leaves_flag_false :
  let r := update_stock_data 101 [] [Scenario.order "P1" "A001" 3]
                             (Session.open Scenario.warehouse) in
  snd r = (true, stock_ok_message, 0%nat)
  /\ map Item.units_in_stock (items (Session.committed (fst r))) = [7]
  /\ map Item.units_purchased (items (Session.committed (fst r))) = [3]
  /\ map Item.requires_sync (items (Session.committed (fst r))) = [false].
Proof. repeat split. Qed.

(** C4.  The database raises at the commit of the only purchase, so
    [update_stock_data] reports failure; the run uploads all the same,
    renders the success page and writes error code 0. *)
Example sync_ignores_stock_failure :
  let w := Scenario.world (Responded 200 "ok" [Scenario.order "P1" "A001" 3])
                          Scenario.accepted [CommitFault] in
  let applied := snd (update_stock_data 101 [CommitFault] [Scenario.order "P1" "A001" 3]
                        (Session.open Scenario.warehouse)) in
  let run := sync w Scenario.warehouse in
  fst (fst applied) = false
  /\ uploaded run = Some (build_sync_data Scenario.warehouse)
  /\ rendered run = sync_success
  /\ map SyncHistory.error_code (sync_history (database_after run)) = [0].
Proof. vm_compute. repeat split. Qed.

(** However [update_stock_data] ends, the run never writes error code 3. *)
Lemma download_and_apply_never_3 (w : World) (s : Session.t) :
  snd (download_and_apply w s) <> 3.
Proof.
  unfold download_and_apply.
  destruct (download_data (get_response w)) as [[ok purchases] msg].
  destruct ok; [|simpl; lia].
  destruct (list_truthy purchases); [|simpl; lia].
  destruct (update_purchase_data _ _ _ _) as [s1 stored].
  destruct (update_stock_data _ _ _ _) as [s2 applied].
  destruct stored; simpl; lia.
Qed.



(** C10.  A purchase whose code is both live and deleted, the queries not
    raising: the step takes the deleted-item branch.  It gives the session
    the deleted-item issue, counts it, commits nothing, and leaves the items
    table, the live item with it, as it was. *)
Theorem deleted_branch_takes_precedence (now : timestamp) (fault : db_fault)
    (purchase : Purchase.t) (item : Item.t) (deleted_item : DeletedItem.t)
    (st : applier_state) :
  fault <> QueryFault ->
  find_item (Purchase.code purchase) (Session.working (session st)) = Some item ->
  find_deleted_item (Purchase.code purchase) (Session.working (session st))
    = Some deleted_item ->
  let r := stock_step now fault purchase st in
  let s' := session (snd r) in
  fst r = Next
  /\ issues (Session.working s')
     = (issues (Session.working (session st))
        ++ [new_issue now (deleted_message (Purchase.code purchase) deleted_item)])%list
  /\ issues_raised (snd r) = S (issues_raised st)
  /\ items (Session.working s') = items (Session.working (session st))
  /\ find_item (Purchase.code purchase) (Session.working s') = Some item
  /\ deleted_items (Session.working s') = deleted_items (Session.working (session st))
  /\ Session.committed s' = Session.committed (session st).
Proof.
  intros Hfault Hitem Hdeleted. unfold stock_step.
  destruct fault; [|congruence|]; rewrite Hitem, Hdeleted; simpl; repeat split; exact Hitem.
Qed.

Lemma deleted_branch_takes_precedence_witness :
  let st := mkApplier (Session.open Scenario.warehouse_with_tombstone) 0 in
  let r := stock_step 101 NoFault (Scenario.order "P1" "A001" 3) st in
  let s' := session (snd r) in
  fst r = Next
  /\ issues (Session.working s')
     = ([] ++ [new_issue 101 (deleted_message "A001" Scenario.tombstone)])%list
  /\ issues_raised (snd r) = 1%nat
  /\ items (Session.working s') = [Scenario.widget]
  /\ find_item "A001" (Session.working s') = Some Scenario.widget
  /\ deleted_items (Session.working s') = [Scenario.tombstone]
  /\ Session.committed s' = Scenario.warehouse_with_tombstone.
Proof.
  apply (@deleted_branch_takes_precedence 101 NoFault (Scenario.order "P1" "A001" 3)
           Scenario.widget Scenario.tombstone
           (mkApplier (Session.open Scenario.warehouse_with_tombstone) 0));
    [discriminate | reflexivity | reflexivity].
Defined.

(** ** The delta categoriser *)

(** The four lists of [sync_data] are the rows of the four categories. *)
Lemma build_sync_data_by_category (d : Database) :
  build_sync_data d
  = mkPayload
      (map (project ["code"; "name"])
           (filter (fun x => in_category Deleted (DeletedItemRecord x)) (deleted_items d)))
      (map (project ["code"; "name"])
           (filter (fun i => in_category NotForSale (StockItem i)) (items d)))
      (map (project ["code"; "name"])
           (filter (fun i => in_category OutOfStock (StockItem i)) (items d)))
      (map (project stock_updates_attributes)
           (filter (fun i => in_category StockUpdates (StockItem i)) (items d))).
Proof. reflexivity. Qed.

Lemma in_category_item (c : category) (i : Item.t) :
  in_category c (StockItem i)
  = match c with
    | Deleted => false
    | NotForSale => Item.requires_sync i && ItemStatus_eqb (Item.status i) NOT_FOR_SALE
    | OutOfStock =>
        Item.requires_sync i && ItemStatus_eqb (Item.status i) FOR_SALE
        && (Item.units_in_stock i <=? 0)
    | StockUpdates =>
        Item.requires_sync i && ItemStatus_eqb (Item.status i) FOR_SALE
        && (Item.units_in_stock i >? 0)
    end.
Proof.
  destruct c; cbn; try reflexivity;
    destruct (Item.requires_sync i), (Item.status i); cbn;
    try reflexivity; now rewrite andb_true_r.
Qed.

Lemma in_category_deleted (c : category) (d : DeletedItem.t) :
  in_category c (DeletedItemRecord d)
  = match c with
    | Deleted => DeletedItem.requires_sync d
    | _ => false
    end.
Proof. destruct c; cbn; try reflexivity. destruct (DeletedItem.requires_sync d); reflexivity. Qed.

(** C6.  No row is selected by two categories; a row selected by a category
    is pending; a pending stock item is selected by exactly one of
    not-for-sale, out-of-stock and stock-updates; and every pending row is
    selected by exactly one category. *)
Theorem delta_categories_partition_pending :
  (forall (r : record) (c1 c2 : category),
      in_category c1 r = true -> in_category c2 r = true -> c1 = c2)
  /\ (forall (r : record) (c : category), in_category c r = true -> pending r = true)
  /\ (forall i : Item.t,
        Item.requires_sync i = true ->
        exists c, c <> Deleted /\ in_category c (StockItem i) = true
                  /\ forall c', in_category c' (StockItem i) = true -> c' = c)
  /\ (forall r : record,
        pending r = true ->
        exists c, in_category c r = true
                  /\ forall c', in_category c' r = true -> c' = c).
Proof.
  assert (Hdisjoint : forall (r : record) (c1 c2 : category),
             in_category c1 r = true -> in_category c2 r = true -> c1 = c2).
  { intros [i|d] c1 c2.
    - rewrite !in_category_item.
      destruct c1, c2; try reflexivity; try discriminate;
        destruct (Item.requires_sync i), (Item.status i); cbn; try discriminate;
        intros H1 H2; apply Z.leb_le in H1 || apply Z.leb_le in H2; lia.
    - rewrite !in_category_deleted. destruct c1, c2; try reflexivity; discriminate. }
  assert (Hitem : forall i : Item.t,
             Item.requires_sync i = true ->
             exists c, c <> Deleted /\ in_category c (StockItem i) = true).
  { intros i Hp.
    destruct (Item.status i) eqn:Hs.
    - exists NotForSale. split; [discriminate|]. rewrite in_category_item, Hp, Hs. reflexivity.
    - destruct (Item.units_in_stock i <=? 0) eqn:Hq.
      + exists OutOfStock. split; [discriminate|].
        rewrite in_category_item, Hp, Hs, Hq. reflexivity.
      + exists StockUpdates. split; [discriminate|].
        rewrite in_category_item, Hp, Hs. cbn. apply Z.leb_gt in Hq. apply Z.gtb_gt. lia. }
  split; [exact Hdisjoint|]. split; [|split].
  - intros [i|d] c.
    + rewrite in_category_item. destruct c; cbn; try discriminate;
        destruct (Item.requires_sync i); cbn; try reflexivity; discriminate.
    + rewrite in_category_deleted. destruct c; cbn; try discriminate. tauto.
  - intros i Hp. destruct (Hitem i Hp) as (c & Hc & Hin).
    exists c. repeat split; try assumption. intros c' Hin'. now apply (Hdisjoint (StockItem i)).
  - intros [i|d] Hp.
    + destruct (Hitem i Hp) as (c & _ & Hin).
      exists c. split; [exact Hin|]. intros c' Hin'. now apply (Hdisjoint (StockItem i)).
    + exists Deleted. split; [now rewrite in_category_deleted|].
      intros c' Hin'. apply (Hdisjoint (DeletedItemRecord d)); [exact Hin'|].
      now rewrite in_category_deleted.
Qed.

Lemma delta_categories_partition_pending_witness :
  pending (StockItem (Item.set_requires_sync true Scenario.widget)) = true
  /\ exists c, in_category c (StockItem (Item.set_requires_sync true Scenario.widget)) = true
               /\ forall c', in_category c'
                               (StockItem (Item.set_requires_sync true Scenario.widget)) = true ->
                             c' = c.
Proof.
  split; [reflexivity|].
  apply (proj2 (proj2 (proj2 delta_categories_partition_pending))). reflexivity.
Defined.

(** ** The sync run *)

Lemma write_audit_committed (w : World) (error_code : Z) (s : Session.t) :
  Session.committed (write_audit w error_code s)
  = with_sync_history
      (sync_history (Session.working s)
       ++ [sync_record (connection_start_time w) (connection_end_time w) error_code])
      (Session.working s).
Proof. reflexivity. Qed.

Lemma build_sync_data_with_sync_history (l : list SyncHistory.t) (d : Database) :
  build_sync_data (with_sync_history l d) = build_sync_data d.
Proof. reflexivity. Qed.

(** A run whose download fails. *)
Lemma sync_download_failed (w : World) (db : Database) :
  download_failed (get_response w) ->
  sync w db = mkRun (write_audit w 1 (Session.open db)) sync_failure None.
Proof.
  intros Hfail. unfold sync, download_and_apply, download_failed in *.
  destruct (get_response w) as [status text body| | |e]; simpl; try reflexivity.
  apply Z.eqb_neq in Hfail. rewrite Hfail. reflexivity.
Qed.

(** A run that reaches the upload and whose push result is not true. *)
Lemma sync_upload_failed (w : World) (db : Database) (payload : sync_payload) :
  uploaded (sync w db) = Some payload ->
  result_truthy (upload_data (post_response w)) = false ->
  exists s,
    session_frame db s
    /\ payload = build_sync_data (Session.working s)
    /\ sync w db = mkRun (write_audit w 1 s) sync_failure (Some payload).
Proof.
  intros Hup Hfalse. unfold sync in *.
  pose proof (download_and_apply_frame w db) as Hframe.
  destruct (download_and_apply w (Session.open db)) as [s error_code].
  destruct (negb (error_code =? 0)); [discriminate|].
  rewrite Hfalse in *. simpl in *. injection Hup as <-.
  exists s. repeat split; apply Hframe.
Qed.

(** C8.  The download fails, by a connectivity error or a status other than
    200: the run leaves the database as it found it but for one audit row
    with error code 1, calls no upload, and renders the failure page. *)
Theorem download_failure_aborts_run (w : World) (db : Database) :
  download_failed (get_response w) ->
  let run := sync w db in
  database_after run
  = with_sync_history
      (sync_history db
       ++ [sync_record (connection_start_time w) (connection_end_time w) 1]) db
  /\ uploaded run = None
  /\ rendered run = sync_failure.
Proof. intros Hfail. simpl. rewrite (sync_download_failed w db Hfail). repeat split. Qed.

Lemma download_failure_aborts_run_witness :
  let w := Scenario.world ConnectionError Scenario.accepted [] in
  let run := sync w Scenario.warehouse in
  database_after run
  = with_sync_history (sync_history Scenario.warehouse ++ [sync_record 100 102 1])
                      Scenario.warehouse
  /\ uploaded run = None
  /\ rendered run = sync_failure.
Proof.
  apply (@download_failure_aborts_run
           (Scenario.world ConnectionError Scenario.accepted []) Scenario.warehouse).
  exact I.
Defined.

(** What a run with a failed push leaves behind. *)
Lemma sync_upload_failed_effects (w : World) (db : Database) (payload : sync_payload) :
  uploaded (sync w db) = Some payload ->
  result_truthy (upload_data (post_response w)) = false ->
  rendered (sync w db) = sync_failure
  /\ sync_history (database_after (sync w db))
     = (sync_history db
        ++ [sync_record (connection_start_time w) (connection_end_time w) 1])%list
  /\ item_flags (database_after (sync w db)) = item_flags db
  /\ deleted_flags (database_after (sync w db)) = deleted_flags db
  /\ build_sync_data (database_after (sync w db)) = payload.
Proof.
  intros Hup Hfalse.
  destruct (sync_upload_failed w db Hup Hfalse) as (s & [_ (Hi & Hd & Hh)] & -> & ->).
  unfold database_after. simpl final. rewrite write_audit_committed.
  repeat split.
  - simpl. now rewrite Hh.
  - exact Hi.
  - unfold deleted_flags. simpl. now rewrite Hd.
Qed.

(** C7.  The run reaches the upload and the push result is not true: every
    stock item and every deleted-item record has, after the run, the code
    and the sync flag it had before, and the categoriser on the database
    after the run gives the payload of the failed push. *)
Theorem failed_upload_changes_no_flag (w : World) (db : Database) (payload : sync_payload) :
  uploaded (sync w db) = Some payload ->
  result_truthy (upload_data (post_response w)) = false ->
  let after := database_after (sync w db) in
  item_flags after = item_flags db
  /\ deleted_flags after = deleted_flags db
  /\ build_sync_data after = payload.
Proof.
  intros Hup Hfalse.
  destruct (sync_upload_failed_effects w db Hup Hfalse) as (_ & _ & Hi & Hd & Hp).
  now repeat split.
Qed.

Lemma failed_upload_changes_no_flag_witness :
  let w := Scenario.world (Responded 200 "ok" [Scenario.order "P1" "A001" 3])
                          Timeout [] in
  let after := database_after (sync w Scenario.warehouse_pending) in
  item_flags after = item_flags Scenario.warehouse_pending
  /\ deleted_flags after = deleted_flags Scenario.warehouse_pending
  /\ build_sync_data after
     = build_sync_data
         (mkDatabase [Item.set_requires_sync true Scenario.widget] [Scenario.tombstone]
                     [] [] []).
Proof.
  apply (@failed_upload_changes_no_flag
           (Scenario.world (Responded 200 "ok" [Scenario.order "P1" "A001" 3]) Timeout [])
           Scenario.warehouse_pending
           (build_sync_data
              (mkDatabase [Item.set_requires_sync true Scenario.widget]
                          [Scenario.tombstone] [] [] [])));
    reflexivity.
Defined.

(** The flag reconciler writes no audit row. *)
Lemma set_single_value_step_history {R : Type} `{Model R}
    (key_col_target key_col_input field : string) (new_value : pyval)
    (st : reconciler_state) (item : pydict) :
  (forall (l : list R) (d : Database), sync_history (store_all l d) = sync_history d) ->
  let st' := set_single_value_step key_col_target key_col_input field new_value st item in
  Session.committed (rec_session st') = Session.committed (rec_session st)
  /\ sync_history (Session.working (rec_session st'))
     = sync_history (Session.working (rec_session st)).
Proof.
  intros Hstore. unfold set_single_value_step.
  destruct (dict_get key_col_input item) as [search_value|]; [|now split].
  destruct (find _ _); simpl; split; try reflexivity. apply Hstore.
Qed.

Lemma set_single_value_on_list_history {R : Type} `{Model R} (h : list SyncHistory.t)
    (fault : db_fault) (key_col_target : string) (items_to_update : list pydict)
    (key_col_input field : string) (new_value : pyval) (s : Session.t) :
  (forall (l : list R) (d : Database), sync_history (store_all l d) = sync_history d) ->
  history_frame h s ->
  history_frame h (fst (set_single_value_on_list (R := R) fault key_col_target
                          items_to_update key_col_input field new_value s)).
Proof.
  intros Hstore [Hc Hw]. unfold set_single_value_on_list.
  destruct fault; simpl; try (now split).
  assert (Hfold : forall (l : list pydict) (st : reconciler_state),
             sync_history (Session.working (rec_session st)) = h ->
             sync_history
               (Session.working
                  (rec_session
                     (fold_left (set_single_value_step (R := R) key_col_target key_col_input
                                                       field new_value) l st))) = h).
  { induction l as [|item rest IH]; intros st Hst; simpl; [exact Hst|].
    apply IH.
    destruct (@set_single_value_step_history R _ key_col_target key_col_input field
                new_value st item Hstore) as [_ Heq].
    simpl in Heq. now rewrite Heq. }
  split; apply Hfold; exact Hw.
Qed.

Lemma reset_flags_history (h : list SyncHistory.t) (w : World) (sync_data : sync_payload)
    (s : Session.t) :
  history_frame h s -> history_frame h (reset_flags w sync_data s).
Proof.
  intros H. unfold reset_flags.
  repeat (apply set_single_value_on_list_history; [reflexivity|]). exact H.
Qed.

Lemma upload_data_falsy_iff (response : http_result json) :
  push_failed response <-> result_truthy (upload_data response) = false.
Proof.
  unfold push_failed, upload_data.
  destruct response as [status text body| | |e]; simpl; try tauto.
  destruct (Z.eqb_spec status 200) as [->|Hne]; simpl.
  - split; [intros [H|H]; [congruence|exact H] | now right].
  - split; [reflexivity | now left].
Qed.

(** A run that reaches the upload and whose push result is true. *)
Lemma sync_upload_accepted (w : World) (db : Database) (payload : sync_payload) :
  uploaded (sync w db) = Some payload ->
  result_truthy (upload_data (post_response w)) = true ->
  exists s,
    session_frame db s
    /\ sync w db = mkRun (write_audit w 0 (reset_flags w payload s)) sync_success (Some payload).
Proof.
  intros Hup Htrue. unfold sync in *.
  pose proof (download_and_apply_frame w db) as Hframe.
  destruct (download_and_apply w (Session.open db)) as [s error_code].
  destruct (error_code =? 0) eqn:Hcode; simpl in *; [|discriminate].
  apply Z.eqb_eq in Hcode. subst error_code.
  rewrite Htrue in *. simpl in *. injection Hup as <-.
  exists s. split; [exact Hframe|reflexivity].
Qed.

(** C9.  For a run that reaches the upload, with its push answered by any
    response or exception:
    - the push result is not true exactly for a connectivity error, a status
      other than 200, and a status 200 whose parsed body is not true;
    - in these cases the run renders the failure page, writes one audit row
      with error code 1, and changes no code and no sync flag;
    - in the other cases it renders the success page and writes one audit row
      with error code 0;
    - a flag differs after the run only if the push was answered with status
      200 and a body that is true. *)
Theorem push_fails_exactly_on_falsy_result (w : World) (db : Database)
    (payload : sync_payload) :
  uploaded (sync w db) = Some payload ->
  let run := sync w db in
  let after := database_after run in
  let audit := fun error_code =>
    sync_record (connection_start_time w) (connection_end_time w) error_code in
  (push_failed (post_response w) <-> result_truthy (upload_data (post_response w)) = false)
  /\ (push_failed (post_response w) ->
        rendered run = sync_failure
        /\ sync_history after = (sync_history db ++ [audit 1])%list
        /\ item_flags after = item_flags db
        /\ deleted_flags after = deleted_flags db)
  /\ (~ push_failed (post_response w) ->
        rendered run = sync_success
        /\ sync_history after = (sync_history db ++ [audit 0])%list)
  /\ (item_flags after <> item_flags db \/ deleted_flags after <> deleted_flags db ->
        exists text body,
          post_response w = Responded 200 text body /\ json_truthy body = true).
Proof.
  intros Hup run after audit.
  assert (Hfailed : push_failed (post_response w) ->
            rendered run = sync_failure
            /\ sync_history after = (sync_history db ++ [audit 1])%list
            /\ item_flags after = item_flags db
            /\ deleted_flags after = deleted_flags db).
  { intros Hpush. apply upload_data_falsy_iff in Hpush.
    destruct (sync_upload_failed_effects w db Hup Hpush) as (Hr & Hh & Hi & Hd & _).
    now repeat split. }
  split; [apply upload_data_falsy_iff|]. split; [exact Hfailed|]. split.
  - intros Hnot.
    assert (Htrue : result_truthy (upload_data (post_response w)) = true).
    { destruct (result_truthy (upload_data (post_response w))) eqn:E; [reflexivity|].
      exfalso. apply Hnot. now apply upload_data_falsy_iff. }
    destruct (sync_upload_accepted w db Hup Htrue) as (s & [(_ & _ & Hc) (_ & _ & Hw)] & Hrun).
    subst run after. rewrite Hrun. unfold database_after. simpl final.
    rewrite write_audit_committed. simpl. split; [reflexivity|].
    destruct (@reset_flags_history (sync_history db) w payload s (conj Hc Hw)) as [_ ->].
    reflexivity.
  - intros Hdiff.
    destruct (post_response w) as [status text body| | |e] eqn:Hresp;
      try (exfalso; destruct (Hfailed I) as (_ & _ & Hi & Hd); tauto).
    destruct (Z.eq_dec status 200) as [->|Hne];
      [|exfalso; destruct (Hfailed (or_introl Hne)) as (_ & _ & Hi & Hd); tauto].
    destruct (json_truthy body) eqn:Hbody;
      [|exfalso; destruct (Hfailed (or_intror Hbody)) as (_ & _ & Hi & Hd); tauto].
    now exists text, body.
Qed.

Lemma push_fails_exactly_on_falsy_result_witness :
  let w := Scenario.world (Responded 200 "[]" []) (Responded 200 "{}" (JDict [])) [] in
  let run := sync w Scenario.warehouse_pending in
  rendered run = sync_failure
  /\ sync_history (database_after run) = ([] ++ [sync_record 100 102 1])%list
  /\ item_flags (database_after run) = item_flags Scenario.warehouse_pending
  /\ deleted_flags (database_after run) = deleted_flags Scenario.warehouse_pending.
Proof.
  destruct (@push_fails_exactly_on_falsy_result
              (Scenario.world (Responded 200 "[]" []) (Responded 200 "{}" (JDict [])) [])
              Scenario.warehouse_pending
              (build_sync_data Scenario.warehouse_pending) eq_refl)
    as (_ & Hfailed & _).
  apply Hfailed. right. reflexivity.
Defined.

(** * Further properties *)

(** ** The purchase applier over a batch *)

Lemma Forall_update_first {A : Type} (P : A -> Prop) (p : A -> bool) (f : A -> A)
    (l : list A) :
  (forall x, p x = true -> P x -> P (f x)) -> Forall P l -> Forall P (update_first p f l).
Proof.
  intros Hf Hl. induction Hl as [|x r Hx Hr IH]; simpl; [constructor|].
  destruct (p x) eqn:Hp; constructor; auto.
Qed.

Lemma apply_to_item_nonneg (now : timestamp) (purchase : Purchase.t) (item : Item.t)
    (st : applier_state) :
  stock_nonneg (Session.working (session st)) ->
  stock_nonneg (Session.working (session (apply_to_item now purchase item st))).
Proof.
  intros H. unfold apply_to_item, stock_nonneg in *.
  destruct (Item.units_in_stock item - Purchase.quantity purchase <=? 0) eqn:Hq; simpl;
    repeat (apply Forall_update_first; [intros x _ Hx; simpl; try lia|]); exact H.
Qed.

Lemma apply_to_item_committed (now : timestamp) (purchase : Purchase.t) (item : Item.t)
    (st : applier_state) :
  Session.committed (session (apply_to_item now purchase item st))
  = Session.committed (session st).
Proof.
  unfold apply_to_item.
  destruct (Item.units_in_stock item - Purchase.quantity purchase <=? 0); reflexivity.
Qed.

Lemma stock_step_nonneg (now : timestamp) (fault : db_fault) (purchase : Purchase.t)
    (st : applier_state) :
  stock_nonneg (Session.committed (session st)) ->
  stock_nonneg (Session.working (session st)) ->
  let st' := snd (stock_step now fault purchase st) in
  stock_nonneg (Session.committed (session st'))
  /\ stock_nonneg (Session.working (session st')).
Proof.
  intros Hc Hw. unfold stock_step.
  assert (Hbody : forall o : option Item.t,
            let st1 := match o with
                       | Some i => apply_to_item now purchase i st
                       | None => st
                       end in
            stock_nonneg (Session.committed (session st1))
            /\ stock_nonneg (Session.working (session st1))).
  { intros [i|]; cbv zeta; [|now split].
    split; [now rewrite apply_to_item_committed | now apply apply_to_item_nonneg]. }
  destruct fault; simpl; try (now split);
    destruct (negb _ && negb _); simpl; try (now split);
    destruct (find_deleted_item _ _); simpl; try (now split);
    destruct (Hbody (find_item (Purchase.code purchase) (Session.working (session st))))
      as [H1 H2]; now split.
Qed.

Lemma stock_loop_nonneg (now : timestamp) (data : list Purchase.t) :
  forall (faults : list db_fault) (st : applier_state),
    stock_nonneg (Session.committed (session st)) ->
    stock_nonneg (Session.working (session st)) ->
    stock_nonneg (Session.committed (fst (stock_loop now faults data st)))
    /\ stock_nonneg (Session.working (fst (stock_loop now faults data st))).
Proof.
  induction data as [|purchase rest IH]; intros faults st Hc Hw; simpl; [now split|].
  destruct (@stock_step_nonneg now (hd NoFault faults) purchase st Hc Hw) as [Hc' Hw'].
  destruct (stock_step now (hd NoFault faults) purchase st) as [[|] st1]; simpl in *.
  - now apply IH.
  - now split.
Qed.

(** X1.  Quantities stay non-negative: if no item of the session has a
    negative quantity, none has after [update_stock_data], whatever the
    purchases and wherever the database raises. *)
Theorem update_stock_data_keeps_stock_nonneg (now : timestamp) (faults : list db_fault)
    (data : list Purchase.t) (s : Session.t) :
  stock_nonneg (Session.committed s) ->
  stock_nonneg (Session.working s) ->
  let s' := fst (update_stock_data now faults data s) in
  stock_nonneg (Session.committed s') /\ stock_nonneg (Session.working s').
Proof. intros Hc Hw. unfold update_stock_data. now apply stock_loop_nonneg. Qed.

Lemma update_stock_data_keeps_stock_nonneg_witness :
  let s' := fst (update_stock_data 101 [NoFault; CommitFault]
                   [Scenario.order "P1" "A001" 15; Scenario.order "P2" "A001" 1]
                   (Session.open Scenario.warehouse)) in
  stock_nonneg (Session.committed s') /\ stock_nonneg (Session.working s').
Proof.
  apply (@update_stock_data_keeps_stock_nonneg 101 [NoFault; CommitFault]
           [Scenario.order "P1" "A001" 15; Scenario.order "P2" "A001" 1]
           (Session.open Scenario.warehouse));
    repeat constructor; simpl; lia.
Defined.

Lemma apply_to_item_issues_raised (now : timestamp) (purchase : Purchase.t) (item : Item.t)
    (st : applier_state) :
  (issues_raised (apply_to_item now purchase item st) <= S (issues_raised st))%nat.
Proof.
  unfold apply_to_item.
  destruct (Item.units_in_stock item - Purchase.quantity purchase <=? 0); simpl; lia.
Qed.

Lemma stock_step_issues_raised (now : timestamp) (fault : db_fault) (purchase : Purchase.t)
    (st : applier_state) :
  (issues_raised (snd (stock_step now fault purchase st)) <= S (issues_raised st))%nat.
Proof.
  unfold stock_step.
  assert (Hbody : forall o : option Item.t,
            (issues_raised match o with
                           | Some i => apply_to_item now purchase i st
                           | None => st
                           end <= S (issues_raised st))%nat).
  { intros [i|]; [apply apply_to_item_issues_raised | lia]. }
  destruct fault; simpl; try lia;
    destruct (negb _ && negb _); simpl; try lia;
    destruct (find_deleted_item _ _); simpl; try lia; apply Hbody.
Qed.

Lemma stock_step_without_fault (now : timestamp) (purchase : Purchase.t)
    (st : applier_state) :
  fst (stock_step now NoFault purchase st) = Next.
Proof.
  unfold stock_step. destruct (negb _ && negb _); [reflexivity|].
  destruct (find_deleted_item _ _); reflexivity.
Qed.

Lemma stock_loop_without_fault (now : timestamp) (data : list Purchase.t) :
  forall (faults : list db_fault) (st : applier_state),
    Forall (fun f => f = NoFault) faults ->
    let r := snd (stock_loop now faults data st) in
    fst r = (true, stock_ok_message)
    /\ (snd r <= issues_raised st + List.length data)%nat.
Proof.
  induction data as [|purchase rest IH]; intros faults st Hf; simpl; [split; [reflexivity|lia]|].
  assert (Hhd : hd NoFault faults = NoFault) by (destruct Hf; [reflexivity|assumption]).
  assert (Htl : Forall (fun f => f = NoFault) (tl faults)) by (destruct Hf; [constructor|assumption]).
  rewrite Hhd.
  pose proof (stock_step_without_fault now purchase st) as Hnext.
  pose proof (stock_step_issues_raised now NoFault purchase st) as Hcount.
  destruct (stock_step now NoFault purchase st) as [e st1]. simpl in *. subst e.
  destruct (IH (tl faults) st1 Htl) as [Hok Hle]. split; [exact Hok|]. simpl in Hle. lia.
Qed.

(** X2.  Anomalies never fail a batch: when the database raises nowhere,
    [update_stock_data] reports success with its success message, whatever
    the purchases, and counts at most one issue for each purchase. *)
Theorem update_stock_data_without_fault_succeeds (now : timestamp)
    (faults : list db_fault) (data : list Purchase.t) (s : Session.t) :
  Forall (fun f => f = NoFault) faults ->
  let r := snd (update_stock_data now faults data s) in
  fst r = (true, stock_ok_message) /\ (snd r <= List.length data)%nat.
Proof.
  intros Hf. unfold update_stock_data.
  destruct (@stock_loop_without_fault now data faults (mkApplier s 0) Hf) as [Hok Hle].
  split; [exact Hok | exact Hle].
Qed.

Lemma update_stock_data_without_fault_succeeds_witness :
  let r := snd (update_stock_data 101 [NoFault; NoFault]
                  [Scenario.order "P1" "Z999" 1; Scenario.order "P2" "A001" 15]
                  (Session.open Scenario.warehouse_with_tombstone)) in
  fst r = (true, stock_ok_message) /\ (snd r <= 2)%nat.
Proof.
  apply (@update_stock_data_without_fault_succeeds 101 [NoFault; NoFault]
           [Scenario.order "P1" "Z999" 1; Scenario.order "P2" "A001" 15]
           (Session.open Scenario.warehouse_with_tombstone)).
  repeat constructor.
Defined.

(** X3.  A purchase on a live item (its code is among the live items and
    not among the deleted ones) of less than the quantity on hand, the
    database not raising: the step commits the item with the quantity
    reduced and the counter increased by the purchased amount, and raises no
    issue. *)
Theorem purchase_within_stock_reduces_quantity (now : timestamp) (purchase : Purchase.t)
    (item : Item.t) (st : applier_state) :
  find_item (Purchase.code purchase) (Session.working (session st)) = Some item ->
  find_deleted_item (Purchase.code purchase) (Session.working (session st)) = None ->
  Purchase.quantity purchase < Item.units_in_stock item ->
  let r := stock_step now NoFault purchase st in
  let after := Session.committed (session (snd r)) in
  fst r = Next
  /\ (exists item',
        find_item (Purchase.code purchase) after = Some item'
        /\ Item.units_in_stock item'
           = Item.units_in_stock item - Purchase.quantity purchase
        /\ Item.units_purchased item'
           = Item.units_purchased item + Purchase.quantity purchase
        /\ item_static item' = item_static item)
  /\ issues after = issues (Session.working (session st))
  /\ issues_raised (snd r) = issues_raised st.
Proof.
  intros Hitem Hdeleted Hqty. unfold stock_step. rewrite Hitem, Hdeleted. simpl.
  unfold apply_to_item.
  replace (Item.units_in_stock item - Purchase.quantity purchase <=? 0) with false
    by (symmetry; apply Z.leb_gt; lia).
  simpl. repeat split.
  eexists. split.
  - unfold find_item in *. simpl.
    pose proof (find_some _ _ Hitem) as [_ Hcode].
    apply find_update_first; [apply find_update_first; [exact Hitem|exact Hcode]|exact Hcode].
  - repeat split; reflexivity.
Qed.

Lemma purchase_within_stock_reduces_quantity_witness :
  let st := mkApplier (Session.open Scenario.warehouse) 0 in
  let r := stock_step 101 NoFault (Scenario.order "P1" "A001" 3) st in
  let after := Session.committed (session (snd r)) in
  fst r = Next
  /\ (exists item',
        find_item "A001" after = Some item'
        /\ Item.units_in_stock item' = 10 - 3
        /\ Item.units_purchased item' = 0 + 3
        /\ item_static item' = item_static Scenario.widget)
  /\ issues after = []
  /\ issues_raised (snd r) = 0%nat.
Proof.
  apply (@purchase_within_stock_reduces_quantity 101 (Scenario.order "P1" "A001" 3)
           Scenario.widget (mkApplier (Session.open Scenario.warehouse) 0));
    [reflexivity | reflexivity | simpl; lia].
Defined.

Lemma stock_loop_failure_clean (now : timestamp) (data : list Purchase.t) :
  forall (faults : list db_fault) (st : applier_state),
    let r := stock_loop now faults data st in
    fst (fst (snd r)) = false ->
    Session.working (fst r) = Session.committed (fst r)
    /\ snd (fst (snd r)) = stock_failure_message.
Proof.
  induction data as [|purchase rest IH]; intros faults st; simpl; [discriminate|].
  destruct (stock_step now (hd NoFault faults) purchase st) as [[|] st1]; simpl.
  - apply IH.
  - intros _. split; reflexivity.
Qed.

(** X4.  A failed batch leaves nothing pending: when [update_stock_data]
    reports failure, the session it returns has been rolled back (it reads
    what is committed) and the message is the database-error message. *)
Theorem update_stock_data_failure_rolls_back (now : timestamp) (faults : list db_fault)
    (data : list Purchase.t) (s : Session.t) :
  let r := update_stock_data now faults data s in
  fst (fst (snd r)) = false ->
  Session.working (fst r) = Session.committed (fst r)
  /\ snd (fst (snd r)) = stock_failure_message.
Proof. unfold update_stock_data. apply stock_loop_failure_clean. Qed.

Lemma update_stock_data_failure_rolls_back_witness :
  let r := update_stock_data 101 [NoFault; QueryFault]
             [Scenario.order "P1" "A001" 3; Scenario.order "P2" "A001" 1]
             (Session.open Scenario.warehouse_with_tombstone) in
  Session.working (fst r) = Session.committed (fst r)
  /\ snd (fst (snd r)) = stock_failure_message.
Proof.
  apply (@update_stock_data_failure_rolls_back 101 [NoFault; QueryFault]
           [Scenario.order "P1" "A001" 3; Scenario.order "P2" "A001" 1]
           (Session.open Scenario.warehouse_with_tombstone)).
  reflexivity.
Defined.

(** X5.  Purchases are applied first come, first served.  When a first part
    of the batch is applied without the database raising, the whole batch
    gives what the second part gives from the session and the count the
    first part ends with; when the database raises in the first part, the
    whole batch gives what the first part gives, and no later purchase is
    looked at. *)
Theorem stock_loop_first_come_first_served (now : timestamp) (data1 data2 : list Purchase.t) :
  forall (faults1 faults2 : list db_fault) (st : applier_state),
    List.length faults1 = List.length data1 ->
    let r1 := stock_loop now faults1 data1 st in
    stock_loop now (faults1 ++ faults2) (data1 ++ data2) st
    = if fst (fst (snd r1))
      then stock_loop now faults2 data2 (mkApplier (fst r1) (snd (snd r1)))
      else r1.
Proof.
  induction data1 as [|purchase rest IH]; intros faults1 faults2 st Hlen.
  - destruct faults1; [|discriminate]. destruct st; reflexivity.
  - destruct faults1 as [|fault faults1]; [discriminate|]. simpl.
    destruct (stock_step now fault purchase st) as [[|] st1]; simpl.
    + apply IH. simpl in Hlen. lia.
    + reflexivity.
Qed.

Lemma stock_loop_first_come_first_served_witness :
  let st := mkApplier (Session.open Scenario.warehouse) 0 in
  stock_loop 101 ([CommitFault] ++ [NoFault])
             ([Scenario.order "P1" "A001" 3] ++ [Scenario.order "P2" "A001" 1]) st
  = stock_loop 101 [CommitFault] [Scenario.order "P1" "A001" 3] st.
Proof.
  apply (@stock_loop_first_come_first_served 101 [Scenario.order "P1" "A001" 3]
           [Scenario.order "P2" "A001" 1] [CommitFault] [NoFault]
           (mkApplier (Session.open Scenario.warehouse) 0)).
  reflexivity.
Defined.

(** What the loop of the applier keeps, for a view of the database that does
    not depend on the issues and on the two unit columns. *)
Section ApplierView.
Variable T : Type.
Variable view : Database -> T.
Hypothesis view_issues : forall l d, view (with_issues l d) = view d.
Hypothesis view_units :
  forall (p : Item.t -> bool) (f : Item.t -> Item.t) (d : Database),
    (forall i, item_static (f i) = item_static i) ->
    view (with_items (update_first p f (items d)) d) = view d.

Lemma session_view_on_working (v : T) (f : Database -> Database) (s : Session.t) :
  (forall d, view (f d) = view d) ->
  session_view view v s -> session_view view v (Session.on_working f s).
Proof. intros Hf [Hc Hw]. split; [exact Hc|]. simpl. now rewrite Hf. Qed.

Lemma session_view_add_issue (v : T) (i : Issue.t) (s : Session.t) :
  session_view view v s -> session_view view v (Session.add_issue i s).
Proof. apply session_view_on_working. intros d. apply view_issues. Qed.

Lemma apply_to_item_view (v : T) (now : timestamp) (purchase : Purchase.t)
    (item : Item.t) (st : applier_state) :
  session_view view v (session st) ->
  session_view view v (session (apply_to_item now purchase item st)).
Proof.
  intros H. unfold apply_to_item.
  destruct (Item.units_in_stock item - Purchase.quantity purchase <=? 0); simpl;
    repeat first [ apply session_view_on_working;
                   [intros d; apply view_units; reflexivity|]
                 | apply session_view_add_issue ]; exact H.
Qed.

Lemma stock_step_view (v : T) (now : timestamp) (fault : db_fault)
    (purchase : Purchase.t) (st : applier_state) :
  session_view view v (session st) ->
  session_view view v (session (snd (stock_step now fault purchase st))).
Proof.
  intros H. unfold stock_step.
  assert (Hbody : forall o : option Item.t,
            session_view view v (session match o with
                                         | Some i => apply_to_item now purchase i st
                                         | None => st
                                         end)).
  { intros [i|]; [now apply apply_to_item_view | exact H]. }
  destruct H as [Hc Hw].
  destruct fault; simpl; try (now split);
    destruct (negb _ && negb _); simpl; try (now split);
    destruct (find_deleted_item _ _); simpl;
    try (apply session_view_add_issue; now split);
    try apply Hbody;
    destruct (Hbody (find_item (Purchase.code purchase) (Session.working (session st))))
      as [_ Hw']; now split.
Qed.

Lemma stock_loop_view (v : T) (now : timestamp) (data : list Purchase.t) :
  forall (faults : list db_fault) (st : applier_state),
    session_view view v (session st) ->
    session_view view v (fst (stock_loop now faults data st)).
Proof.
  induction data as [|purchase rest IH]; intros faults st H; simpl; [exact H|].
  pose proof (@stock_step_view v now (hd NoFault faults) purchase st H) as Hstep.
  destruct (stock_step now (hd NoFault faults) purchase st) as [[|] st1]; simpl in *.
  - now apply IH.
  - destruct Hstep as [Hc _]. now split.
Qed.
End ApplierView.

Lemma outside_units_assign (p : Item.t -> bool) (f : Item.t -> Item.t) (d : Database) :
  (forall i, item_static (f i) = item_static i) ->
  outside_units (with_items (update_first p f (items d)) d) = outside_units d.
Proof.
  intros Hf. unfold outside_units. simpl. f_equal. now apply map_update_first.
Qed.

Lemma update_stock_data_outside_units (now : timestamp) (faults : list db_fault)
    (data : list Purchase.t) (db : Database) :
  session_view outside_units (outside_units db)
    (fst (update_stock_data now faults data (Session.open db))).
Proof.
  unfold update_stock_data.
  apply stock_loop_view; [reflexivity | apply outside_units_assign | now split].
Qed.

(** X6.  [update_stock_data] changes two columns and one table: whatever
    the purchases and the faults, every item keeps its code, name,
    description, price, status, sync flag and vendor, no item is added or
    removed, and the deleted items, the purchase history and the sync
    history are as before; only quantities, purchased-units counters and
    issues differ. *)
Theorem update_stock_data_changes_units_only (now : timestamp) (faults : list db_fault)
    (data : list Purchase.t) (db : Database) :
  let s' := fst (update_stock_data now faults data (Session.open db)) in
  map item_static (items (Session.committed s')) = map item_static (items db)
  /\ ledger (Session.committed s') = ledger db
  /\ map item_static (items (Session.working s')) = map item_static (items db)
  /\ ledger (Session.working s') = ledger db.
Proof.
  destruct (update_stock_data_outside_units now faults data db) as [Hc Hw].
  unfold outside_units in *.
  injection Hc as Hc1 Hc2 Hc3 Hc4. injection Hw as Hw1 Hw2 Hw3 Hw4.
  unfold ledger. cbv zeta. repeat split; congruence.
Qed.

(** ** The flag reconciler *)

Lemma update_first_none {A : Type} (p : A -> bool) (f : A -> A) (l : list A) :
  find p l = None -> update_first p f l = l.
Proof.
  induction l as [|x r IH]; simpl; [reflexivity|].
  destruct (p x); [discriminate|]. intros Hr. now rewrite IH.
Qed.

Lemma update_first_map {A : Type} (key : A -> string) (p : A -> bool) (f : A -> A)
    (l : list A) :
  NoDup (map key l) ->
  (forall x y, p x = true -> p y = true -> key x = key y) ->
  update_first p f l = map (fun r => if p r then f r else r) l.
Proof.
  intros Hnodup Hp. induction l as [|x r IH]; simpl; [reflexivity|].
  inversion Hnodup as [|k ks Hnotin Hrest]; subst.
  destruct (p x) eqn:Hx.
  - f_equal. symmetry. rewrite <- (map_id r) at 2. apply map_ext_in.
    intros y Hy. destruct (p y) eqn:Hpy; [|reflexivity].
    exfalso. apply Hnotin. rewrite (Hp x y Hx Hpy). now apply in_map.
  - f_equal. now apply IH.
Qed.

Lemma str_eqb_same_key (a b : string) (v : pyval) :
  pyval_eqb (PStr a) v = true -> pyval_eqb (PStr b) v = true -> a = b.
Proof.
  destruct v; simpl; try discriminate. intros Ha Hb.
  apply String.eqb_eq in Ha, Hb. congruence.
Qed.

Lemma flags_not_raised_refl (l : list (string * bool)) : flags_not_raised l l.
Proof. induction l; constructor; auto. Qed.

Lemma flags_not_raised_trans (a b c : list (string * bool)) :
  flags_not_raised a b -> flags_not_raised b c -> flags_not_raised a c.
Proof.
  intros Hab. revert c. induction Hab as [|x y a b [Hk Hf] Hab IH]; intros c Hbc.
  - inversion Hbc. constructor.
  - inversion Hbc as [|y' z b' c' [Hk' Hf'] Hbc']; subst. constructor.
    + split; [congruence | auto].
    + now apply IH.
Qed.

Section Reconciler.
Context {R : Type} {M : Model R}.
Variable U : Type.
Variable key : R -> string.
Variable flag : R -> bool.
Variable rest : Database -> U.
Hypothesis column_code : forall r : R, column r "code" = PStr (key r).
Hypothesis clear_key :
  forall r : R, key (setattr "requires_sync" (PBool false) r) = key r.
Hypothesis clear_flag :
  forall r : R, flag (setattr "requires_sync" (PBool false) r) = false.
Hypothesis clear_twice :
  forall r : R, setattr "requires_sync" (PBool false) (setattr "requires_sync" (PBool false) r)
                = setattr "requires_sync" (PBool false) r.
Hypothesis query_store : forall (l : list R) (d : Database), query_all (store_all l d) = l.
Hypothesis rest_store : forall (l : list R) (d : Database), rest (store_all l d) = rest d.

Lemma clear_flag_of_keys (l : list R) (item : pydict) :
  map key (clear_flag_of l item) = map key l.
Proof.
  unfold clear_flag_of. destruct (dict_get "code" item); [|reflexivity].
  apply map_update_first. exact clear_key.
Qed.

Lemma clear_flags_of_keys (items_to_update : list pydict) :
  forall l : list R, map key (clear_flags_of items_to_update l) = map key l.
Proof.
  unfold clear_flags_of. induction items_to_update as [|item r IH]; intros l; simpl;
    [reflexivity|]. now rewrite IH, clear_flag_of_keys.
Qed.

Lemma update_first_not_raised (p : R -> bool) (l : list R) :
  flags_not_raised (map (fun r => (key r, flag r)) l)
    (map (fun r => (key r, flag r))
         (update_first p (setattr "requires_sync" (PBool false)) l)).
Proof.
  induction l as [|x r IH]; simpl; [constructor|].
  destruct (p x); simpl; constructor; simpl.
  - split; [apply clear_key | rewrite clear_flag; discriminate].
  - apply flags_not_raised_refl.
  - now split.
  - exact IH.
Qed.

Lemma clear_flags_of_not_raised (items_to_update : list pydict) :
  forall l : list R,
    flags_not_raised (map (fun r => (key r, flag r)) l)
      (map (fun r => (key r, flag r)) (clear_flags_of items_to_update l)).
Proof.
  unfold clear_flags_of. induction items_to_update as [|item r IH]; intros l; simpl.
  - apply flags_not_raised_refl.
  - eapply flags_not_raised_trans; [|apply IH].
    unfold clear_flag_of. destruct (dict_get "code" item).
    + apply update_first_not_raised.
    + apply flags_not_raised_refl.
Qed.

Lemma clear_flags_of_cleared (items_to_update : list pydict) :
  forall l : list R,
    NoDup (map key l) ->
    clear_flags_of items_to_update l = cleared_rows key items_to_update l.
Proof.
  unfold clear_flags_of, cleared_rows.
  induction items_to_update as [|item r IH]; intros l Hnodup; simpl.
  - now rewrite map_id.
  - rewrite IH by (now rewrite clear_flag_of_keys).
    unfold clear_flag_of, carries_code at 2.
    destruct (dict_get "code" item) as [v|].
    + rewrite (@update_first_map R key) by
        (try assumption; intros x y Hx Hy; rewrite column_code in Hx, Hy;
         eapply str_eqb_same_key; eassumption).
      rewrite map_map. apply map_ext. intros x. rewrite column_code.
      destruct (pyval_eqb (PStr (key x)) v); simpl; [|reflexivity].
      rewrite clear_key. destruct (existsb _ r); [apply clear_twice | reflexivity].
    + simpl. reflexivity.
Qed.

Lemma set_single_value_step_rows (st : reconciler_state) (item : pydict) :
  let st' := set_single_value_step (R := R) "code" "code" "requires_sync" (PBool false)
                                   st item in
  Session.committed (rec_session st') = Session.committed (rec_session st)
  /\ query_all (Session.working (rec_session st'))
     = clear_flag_of (query_all (Session.working (rec_session st))) item
  /\ rest (Session.working (rec_session st')) = rest (Session.working (rec_session st)).
Proof.
  unfold set_single_value_step, clear_flag_of.
  destruct (dict_get "code" item) as [v|]; [|now repeat split].
  destruct (find _ _) eqn:Hfind; simpl.
  - repeat split; [apply query_store | apply rest_store].
  - repeat split. now rewrite update_first_none.
Qed.

Lemma set_single_value_fold_rows (items_to_update : list pydict) :
  forall st : reconciler_state,
    let st' := fold_left (set_single_value_step (R := R) "code" "code" "requires_sync"
                                                (PBool false))
                         items_to_update st in
    Session.committed (rec_session st') = Session.committed (rec_session st)
    /\ query_all (Session.working (rec_session st'))
       = clear_flags_of items_to_update (query_all (Session.working (rec_session st)))
    /\ rest (Session.working (rec_session st')) = rest (Session.working (rec_session st)).
Proof.
  induction items_to_update as [|item r IH]; intros st; simpl; [now repeat split|].
  destruct (set_single_value_step_rows st item) as (Hc & Hq & Hr).
  destruct (IH (set_single_value_step "code" "code" "requires_sync" (PBool false) st item))
    as (Hc' & Hq' & Hr').
  cbv zeta in *. unfold clear_flags_of in *. simpl.
  repeat split; congruence.
Qed.

(** The rows after a call of the reconciler that does not fail. *)
Lemma set_single_value_on_list_rows (items_to_update : list pydict) (s : Session.t) :
  let s' := fst (set_single_value_on_list (R := R) NoFault "code" items_to_update "code"
                   "requires_sync" (PBool false) s) in
  Session.committed s' = Session.working s'
  /\ query_all (Session.working s') = clear_flags_of items_to_update (query_all (Session.working s))
  /\ rest (Session.working s') = rest (Session.working s).
Proof.
  unfold set_single_value_on_list. simpl.
  destruct (set_single_value_fold_rows items_to_update (mkReconciler s 0 0 0))
    as (_ & Hq & Hr).
  now repeat split.
Qed.
End Reconciler.

(** ** Dictionaries and projection *)

Lemma dict_get_set_same (k : string) (v : pyval) (d : pydict) :
  dict_get k (dict_set k v d) = Some v.
Proof.
  induction d as [|[k' v'] r IH]; simpl; [now rewrite String.eqb_refl|].
  destruct (String.eqb k' k) eqn:Hk; simpl; rewrite Hk; [reflexivity | exact IH].
Qed.

Lemma dict_get_set_other (k k' : string) (v : pyval) (d : pydict) :
  k' <> k -> dict_get k' (dict_set k v d) = dict_get k' d.
Proof.
  intros Hne. induction d as [|[k0 v0] r IH]; simpl.
  - destruct (String.eqb_spec k k'); [congruence | reflexivity].
  - destruct (String.eqb_spec k0 k) as [->|Hk0]; simpl.
    + destruct (String.eqb_spec k k'); [congruence | reflexivity].
    + destruct (String.eqb_spec k0 k'); [reflexivity | exact IH].
Qed.

Lemma project_fold_lookup {R : Type} `{Model R} (item : R) (attr : string)
    (attributes : list string) :
  forall update : pydict,
    dict_get attr
      (fold_left
         (fun update a =>
            if has_dot a then dict_set a (nested_getattr (to_py item) (split_dot a)) update
            else dict_set a (column item a) update)
         attributes update)
    = if existsb (String.eqb attr) attributes then Some (projected item attr)
      else dict_get attr update.
Proof.
  induction attributes as [|a r IH]; intros update; simpl; [reflexivity|].
  rewrite IH. destruct (existsb (String.eqb attr) r); [now rewrite orb_true_r|].
  rewrite orb_false_r.
  destruct (String.eqb_spec attr a) as [->|Hne].
  - unfold projected. destruct (has_dot a); apply dict_get_set_same.
  - destruct (has_dot a); now apply dict_get_set_other.
Qed.

Lemma project_get {R : Type} `{Model R} (attributes : list string) (item : R)
    (attr : string) :
  dict_get attr (project attributes item)
  = if existsb (String.eqb attr) attributes then Some (projected item attr) else None.
Proof. unfold project. now rewrite project_fold_lookup. Qed.


(** X8.  With plain values only for filters, [prepare_updates_advanced]
    selects and builds what [prepare_updates] does. *)
Theorem prepare_updates_advanced_simple {R : Type} `{Model R} (attributes : list string)
    (filters : list (string * pyval)) (d : Database) :
  prepare_updates_advanced attributes (map (fun kv => (fst kv, Simple (snd kv))) filters) d
  = prepare_updates attributes filters d.
Proof.
  unfold prepare_updates_advanced, prepare_updates. f_equal.
  apply filter_ext. intros row. unfold advanced_filter, filter_by.
  induction filters as [|[k v] r IH]; simpl; [reflexivity|]. now rewrite IH.
Qed.

Lemma project_carries_code (attributes : list string) (i : Item.t) :
  existsb (String.eqb "code") attributes = true ->
  carries_code (Item.code i) (project attributes i) = true.
Proof.
  intros Hin. unfold carries_code. rewrite project_get, Hin.
  cbn. apply String.eqb_refl.
Qed.

Lemma project_carries_code_deleted (attributes : list string) (d : DeletedItem.t) :
  existsb (String.eqb "code") attributes = true ->
  carries_code (DeletedItem.code d) (project attributes d) = true.
Proof.
  intros Hin. unfold carries_code. rewrite project_get, Hin.
  cbn. apply String.eqb_refl.
Qed.

(** ** The reconciler on the two tables *)

Lemma reset_items_rows (items_to_update : list pydict) (s : Session.t) :
  let s' := fst (set_single_value_on_list (R := Item.t) NoFault "code" items_to_update
                   "code" "requires_sync" (PBool false) s) in
  Session.committed s' = Session.working s'
  /\ items (Session.working s') = clear_flags_of items_to_update (items (Session.working s))
  /\ beside_items (Session.working s') = beside_items (Session.working s).
Proof.
  apply (@set_single_value_on_list_rows Item.t Item_Model _ beside_items); reflexivity.
Qed.

Lemma reset_deleted_rows (items_to_update : list pydict) (s : Session.t) :
  let s' := fst (set_single_value_on_list (R := DeletedItem.t) NoFault "code"
                   items_to_update "code" "requires_sync" (PBool false) s) in
  Session.committed s' = Session.working s'
  /\ deleted_items (Session.working s')
     = clear_flags_of items_to_update (deleted_items (Session.working s))
  /\ beside_deleted_items (Session.working s') = beside_deleted_items (Session.working s).
Proof.
  apply (@set_single_value_on_list_rows DeletedItem.t DeletedItem_Model _
           beside_deleted_items); reflexivity.
Qed.

Lemma item_flags_not_raised (items_to_update : list pydict) (l : list Item.t) (d d' : Database) :
  items d = l -> items d' = clear_flags_of items_to_update l ->
  flags_not_raised (item_flags d) (item_flags d').
Proof.
  intros Hd Hd'. unfold item_flags. rewrite Hd, Hd'.
  apply (@clear_flags_of_not_raised Item.t Item_Model Item.code Item.requires_sync);
    reflexivity.
Qed.

Lemma deleted_flags_not_raised (items_to_update : list pydict) (l : list DeletedItem.t)
    (d d' : Database) :
  deleted_items d = l -> deleted_items d' = clear_flags_of items_to_update l ->
  flags_not_raised (deleted_flags d) (deleted_flags d').
Proof.
  intros Hd Hd'. unfold deleted_flags. rewrite Hd, Hd'.
  apply (@clear_flags_of_not_raised DeletedItem.t DeletedItem_Model DeletedItem.code
           DeletedItem.requires_sync); reflexivity.
Qed.

Lemma reset_items_no_flag_raised (db : Database) (fault : db_fault)
    (items_to_update : list pydict) (s : Session.t) :
  no_flag_raised db s ->
  no_flag_raised db
    (fst (set_single_value_on_list (R := Item.t) fault "code" items_to_update "code"
            "requires_sync" (PBool false) s)).
Proof.
  intros (Hic & Hiw & Hdc & Hdw).
  destruct fault; [|now repeat split|now repeat split].
  destruct (reset_items_rows items_to_update s) as (Hcw & Hrows & Hrest).
  cbv zeta in *. unfold no_flag_raised. rewrite Hcw.
  assert (Hi : flags_not_raised (item_flags db)
                 (item_flags (Session.working
                    (fst (set_single_value_on_list (R := Item.t) NoFault "code"
                            items_to_update "code" "requires_sync" (PBool false) s))))).
  { eapply flags_not_raised_trans; [exact Hiw|].
    eapply item_flags_not_raised; [reflexivity | exact Hrows]. }
  assert (Hd : deleted_flags (Session.working
                  (fst (set_single_value_on_list (R := Item.t) NoFault "code"
                          items_to_update "code" "requires_sync" (PBool false) s)))
               = deleted_flags (Session.working s)).
  { pose proof (f_equal (fun t => fst (fst (fst t))) Hrest) as Hdel.
    unfold beside_items in Hdel. cbn [fst] in Hdel. unfold deleted_flags. now rewrite Hdel. }
  rewrite Hd. now repeat split.
Qed.

Lemma reset_deleted_no_flag_raised (db : Database) (fault : db_fault)
    (items_to_update : list pydict) (s : Session.t) :
  no_flag_raised db s ->
  no_flag_raised db
    (fst (set_single_value_on_list (R := DeletedItem.t) fault "code" items_to_update "code"
            "requires_sync" (PBool false) s)).
Proof.
  intros (Hic & Hiw & Hdc & Hdw).
  destruct fault; [|now repeat split|now repeat split].
  destruct (reset_deleted_rows items_to_update s) as (Hcw & Hrows & Hrest).
  cbv zeta in *. unfold no_flag_raised. rewrite Hcw.
  assert (Hd : flags_not_raised (deleted_flags db)
                 (deleted_flags (Session.working
                    (fst (set_single_value_on_list (R := DeletedItem.t) NoFault "code"
                            items_to_update "code" "requires_sync" (PBool false) s))))).
  { eapply flags_not_raised_trans; [exact Hdw|].
    eapply deleted_flags_not_raised; [reflexivity | exact Hrows]. }
  assert (Hi : item_flags (Session.working
                  (fst (set_single_value_on_list (R := DeletedItem.t) NoFault "code"
                          items_to_update "code" "requires_sync" (PBool false) s)))
               = item_flags (Session.working s)).
  { pose proof (f_equal (fun t => fst (fst (fst t))) Hrest) as Hit.
    unfold beside_deleted_items in Hit. cbn [fst] in Hit. unfold item_flags. now rewrite Hit. }
  rewrite Hi. now repeat split.
Qed.

Lemma session_frame_no_flag_raised (db : Database) (s : Session.t) :
  session_frame db s -> no_flag_raised db s.
Proof.
  intros [(Hic & Hdc & _) (Hiw & Hdw & _)]. unfold no_flag_raised, deleted_flags.
  rewrite Hic, Hiw, Hdc, Hdw. repeat split; apply flags_not_raised_refl.
Qed.

Lemma reset_flags_no_flag_raised (db : Database) (w : World) (sync_data : sync_payload)
    (s : Session.t) :
  no_flag_raised db s -> no_flag_raised db (reset_flags w sync_data s).
Proof.
  intros H. unfold reset_flags.
  repeat apply reset_items_no_flag_raised. now apply reset_deleted_no_flag_raised.
Qed.

(** X9.  A sync run never marks a record for sync and never adds or removes
    one: after any run, whatever the store answers and wherever the database
    raises, the items and the deleted items are the same rows by code, and a
    flag that is true was true before. *)
Theorem sync_raises_no_flag (w : World) (db : Database) :
  let after := database_after (sync w db) in
  flags_not_raised (item_flags db) (item_flags after)
  /\ flags_not_raised (deleted_flags db) (deleted_flags after).
Proof.
  unfold sync.
  pose proof (download_and_apply_frame w db) as Hframe.
  destruct (download_and_apply w (Session.open db)) as [s error_code].
  simpl in Hframe. apply session_frame_no_flag_raised in Hframe.
  assert (Haudit : forall code s',
             no_flag_raised db s' ->
             flags_not_raised (item_flags db)
               (item_flags (Session.committed (write_audit w code s')))
             /\ flags_not_raised (deleted_flags db)
                  (deleted_flags (Session.committed (write_audit w code s')))).
  { intros code s' (_ & Hiw & _ & Hdw). rewrite write_audit_committed. now split. }
  destruct (negb (error_code =? 0)); [now apply Haudit|].
  destruct (negb (result_truthy (upload_data (post_response w)))); [now apply Haudit|].
  apply Haudit. now apply reset_flags_no_flag_raised.
Qed.

(** ** A run whose push is accepted *)

Lemma sync_upload_accepted_payload (w : World) (db : Database) (payload : sync_payload) :
  uploaded (sync w db) = Some payload ->
  result_truthy (upload_data (post_response w)) = true ->
  exists s,
    session_frame db s
    /\ payload = build_sync_data (Session.working s)
    /\ sync w db = mkRun (write_audit w 0 (reset_flags w payload s)) sync_success (Some payload).
Proof.
  intros Hup Htrue. unfold sync in *.
  pose proof (download_and_apply_frame w db) as Hframe.
  destruct (download_and_apply w (Session.open db)) as [s error_code].
  destruct (error_code =? 0) eqn:Hcode; simpl in *; [|discriminate].
  apply Z.eqb_eq in Hcode. subst error_code.
  rewrite Htrue in *. simpl in *. injection Hup as <-.
  exists s. repeat split; apply Hframe.
Qed.

Lemma reset_flags_rows (w : World) (sync_data : sync_payload) (s : Session.t) :
  reset_deleted_fault w = NoFault ->
  reset_out_of_stock_fault w = NoFault ->
  reset_not_for_sale_fault w = NoFault ->
  reset_stock_updates_fault w = NoFault ->
  let s' := reset_flags w sync_data s in
  items (Session.working s')
  = clear_flags_of (stock_updates sync_data)
      (clear_flags_of (not_for_sale sync_data)
         (clear_flags_of (out_of_stock sync_data) (items (Session.working s))))
  /\ deleted_items (Session.working s')
     = clear_flags_of (deleted sync_data) (deleted_items (Session.working s)).
Proof.
  intros F1 F2 F3 F4. unfold reset_flags. rewrite F1, F2, F3, F4. cbv zeta.
  set (s1 := fst (set_single_value_on_list (R := DeletedItem.t) NoFault "code"
                    (deleted sync_data) "code" "requires_sync" (PBool false) s)).
  set (s2 := fst (set_single_value_on_list (R := Item.t) NoFault "code"
                    (out_of_stock sync_data) "code" "requires_sync" (PBool false) s1)).
  set (s3 := fst (set_single_value_on_list (R := Item.t) NoFault "code"
                    (not_for_sale sync_data) "code" "requires_sync" (PBool false) s2)).
  destruct (reset_deleted_rows (deleted sync_data) s) as (_ & Hd1 & Hr1).
  destruct (reset_items_rows (out_of_stock sync_data) s1) as (_ & Hi2 & Hr2).
  destruct (reset_items_rows (not_for_sale sync_data) s2) as (_ & Hi3 & Hr3).
  destruct (reset_items_rows (stock_updates sync_data) s3) as (_ & Hi4 & Hr4).
  cbv zeta in *. fold s1 in Hd1, Hr1. fold s2 in Hi2, Hr2. fold s3 in Hi3, Hr3.
  apply (f_equal (fun t => fst (fst (fst t)))) in Hr1, Hr2, Hr3, Hr4.
  unfold beside_deleted_items, beside_items in *. cbn [fst] in *.
  split.
  - rewrite Hi4, Hi3, Hi2, Hr1. reflexivity.
  - rewrite Hr4, Hr3, Hr2, Hd1. reflexivity.
Qed.

Lemma item_clear_flags_of_cleared (items_to_update : list pydict) (l : list Item.t) :
  NoDup (map Item.code l) ->
  clear_flags_of items_to_update l = cleared_rows Item.code items_to_update l.
Proof.
  apply (@clear_flags_of_cleared Item.t Item_Model Item.code); reflexivity.
Qed.

Lemma deleted_clear_flags_of_cleared (items_to_update : list pydict)
    (l : list DeletedItem.t) :
  NoDup (map DeletedItem.code l) ->
  clear_flags_of items_to_update l = cleared_rows DeletedItem.code items_to_update l.
Proof.
  apply (@clear_flags_of_cleared DeletedItem.t DeletedItem_Model DeletedItem.code);
    reflexivity.
Qed.

Lemma item_cleared_rows_codes (items_to_update : list pydict) (l : list Item.t) :
  map Item.code (cleared_rows Item.code items_to_update l) = map Item.code l.
Proof.
  unfold cleared_rows. rewrite map_map. apply map_ext. intros i.
  destruct (existsb _ _); reflexivity.
Qed.

Lemma selected_row_carried {R : Type} `{Model R} (key : R -> string)
    (attributes : list string) (f : R -> bool) (rows : list R) (r : R) :
  carries_code (key r) (project attributes r) = true ->
  In r rows -> f r = true ->
  existsb (carries_code (key r)) (map (project attributes) (filter f rows)) = true.
Proof.
  intros Hcarried Hin Hf. apply existsb_exists. exists (project attributes r).
  split; [|exact Hcarried]. apply in_map. apply filter_In. now split.
Qed.

(** A pending item is delivered in one of the three lists of items. *)
Lemma pending_item_carried (d : Database) (i : Item.t) :
  In i (items d) -> Item.requires_sync i = true ->
  existsb (carries_code (Item.code i)) (out_of_stock (build_sync_data d))
  || existsb (carries_code (Item.code i)) (not_for_sale (build_sync_data d))
  || existsb (carries_code (Item.code i)) (stock_updates (build_sync_data d)) = true.
Proof.
  intros Hin Hp. rewrite build_sync_data_by_category.
  cbn [out_of_stock not_for_sale stock_updates].
  assert (Hsel : forall attributes c,
             existsb (String.eqb "code") attributes = true ->
             in_category c (StockItem i) = true ->
             existsb (carries_code (Item.code i))
               (map (project attributes)
                    (filter (fun x => in_category c (StockItem x)) (items d))) = true).
  { intros attributes c Hattr Hc.
    apply (selected_row_carried Item.code attributes
             (fun x => in_category c (StockItem x)) (items d) i);
      [now apply project_carries_code | exact Hin | exact Hc]. }
  destruct (Item.status i) eqn:Hs.
  - rewrite (Hsel ["code"; "name"] NotForSale eq_refl)
      by (rewrite in_category_item, Hp, Hs; reflexivity).
    now rewrite orb_true_r.
  - destruct (Item.units_in_stock i <=? 0) eqn:Hq.
    + rewrite (Hsel ["code"; "name"] OutOfStock eq_refl)
        by (rewrite in_category_item, Hp, Hs, Hq; reflexivity).
      reflexivity.
    + rewrite (Hsel stock_updates_attributes StockUpdates eq_refl)
        by (rewrite in_category_item, Hp, Hs; cbn; apply Z.gtb_gt; lia).
      now rewrite !orb_true_r.
Qed.

Lemma pending_deleted_carried (d : Database) (x : DeletedItem.t) :
  In x (deleted_items d) -> DeletedItem.requires_sync x = true ->
  existsb (carries_code (DeletedItem.code x)) (deleted (build_sync_data d)) = true.
Proof.
  intros Hin Hp.
  apply (selected_row_carried DeletedItem.code ["code"; "name"]
           (filter_by deleted_filters) (deleted_items d) x);
    [now apply project_carries_code_deleted | exact Hin |].
  cbn. rewrite Hp. reflexivity.
Qed.

(** X10.  After a run whose push is accepted and whose flag reset meets no
    database fault, nothing is left pending: if the codes of the items are
    pairwise different, every item has its flag false, and if the codes of
    the deleted items are pairwise different, so has every deleted item. *)
Theorem accepted_sync_leaves_nothing_pending (w : World) (db : Database)
    (payload : sync_payload) :
  uploaded (sync w db) = Some payload ->
  result_truthy (upload_data (post_response w)) = true ->
  reset_deleted_fault w = NoFault ->
  reset_out_of_stock_fault w = NoFault ->
  reset_not_for_sale_fault w = NoFault ->
  reset_stock_updates_fault w = NoFault ->
  let after := database_after (sync w db) in
  (NoDup (map Item.code (items db)) ->
   Forall (fun i => Item.requires_sync i = false) (items after))
  /\ (NoDup (map DeletedItem.code (deleted_items db)) ->
      Forall (fun x => DeletedItem.requires_sync x = false) (deleted_items after)).
Proof.
  intros Hup Htrue F1 F2 F3 F4.
  destruct (sync_upload_accepted_payload w db Hup Htrue)
    as (s & [_ (Hflags & Hdel & _)] & Hpayload & Hrun).
  cbv zeta. rewrite Hrun. unfold database_after. simpl final.
  rewrite write_audit_committed. simpl items. simpl deleted_items.
  destruct (reset_flags_rows w payload s F1 F2 F3 F4) as [Hitems Hdeleted].
  cbv zeta in Hitems, Hdeleted. rewrite Hitems, Hdeleted. clear Hitems Hdeleted Hrun.
  split.
  - intros Hnodup.
    assert (Hcodes : map Item.code (items (Session.working s)) = map Item.code (items db)).
    { apply (f_equal (map fst)) in Hflags. unfold item_flags in Hflags.
      now rewrite !map_map in Hflags. }
    rewrite <- Hcodes in Hnodup.
    rewrite (@item_clear_flags_of_cleared (out_of_stock payload) _ Hnodup).
    rewrite (@item_clear_flags_of_cleared (not_for_sale payload)
               (cleared_rows Item.code (out_of_stock payload) (items (Session.working s))))
      by (now rewrite item_cleared_rows_codes).
    rewrite item_clear_flags_of_cleared by (now rewrite !item_cleared_rows_codes).
    unfold cleared_rows. rewrite !map_map. apply Forall_map, Forall_forall.
    intros i Hin.
    pose proof (pending_item_carried (Session.working s) i Hin) as Hcarried.
    rewrite <- Hpayload in Hcarried.
    destruct (existsb (carries_code (Item.code i)) (out_of_stock payload));
      cbn; destruct (existsb (carries_code (Item.code i)) (not_for_sale payload));
      cbn; destruct (existsb (carries_code (Item.code i)) (stock_updates payload));
      cbn; try reflexivity.
    destruct (Item.requires_sync i); [|reflexivity]. now specialize (Hcarried eq_refl).
  - intros Hnodup. rewrite <- Hdel in Hnodup.
    rewrite (@deleted_clear_flags_of_cleared (deleted payload) _ Hnodup).
    unfold cleared_rows. apply Forall_map, Forall_forall.
    intros x Hin.
    pose proof (pending_deleted_carried (Session.working s) x Hin) as Hcarried.
    rewrite <- Hpayload in Hcarried.
    destruct (existsb (carries_code (DeletedItem.code x)) (deleted payload));
      cbn; [reflexivity|].
    destruct (DeletedItem.requires_sync x); [|reflexivity]. now specialize (Hcarried eq_refl).
Qed.

Lemma accepted_sync_leaves_nothing_pending_witness :
  let w := Scenario.world (Responded 200 "[]" []) Scenario.accepted [] in
  let after := database_after (sync w Scenario.warehouse_pending) in
  Forall (fun i => Item.requires_sync i = false) (items after)
  /\ Forall (fun x => DeletedItem.requires_sync x = false) (deleted_items after).
Proof.
  destruct (@accepted_sync_leaves_nothing_pending
              (Scenario.world (Responded 200 "[]" []) Scenario.accepted [])
              Scenario.warehouse_pending (build_sync_data Scenario.warehouse_pending)
              eq_refl eq_refl eq_refl eq_refl eq_refl eq_refl) as [Hitems Hdeleted].
  split; [apply Hitems | apply Hdeleted];
    (apply NoDup_cons; [intros [] | apply NoDup_nil]).
Defined.

(** ** The audit trail of a sync run *)

Lemma download_and_apply_codes (w : World) (s : Session.t) :
  let error_code := snd (download_and_apply w s) in
  error_code = 0 \/ error_code = 1 \/ error_code = 2.
Proof.
  unfold download_and_apply.
  destruct (download_data (get_response w)) as [[ok purchases] msg].
  destruct ok; [|simpl; auto].
  destruct (list_truthy purchases); [|simpl; auto].
  destruct (update_purchase_data _ _ _ _) as [s1 stored].
  destruct (update_stock_data _ _ _ _) as [s2 applied].
  destruct stored; simpl; auto.
Qed.

Lemma session_frame_history (db : Database) (s : Session.t) :
  session_frame db s -> history_frame (sync_history db) s.
Proof. intros [(_ & _ & Hc) (_ & _ & Hw)]. now split. Qed.

(** X11.  Every sync run writes exactly one audit row, of type SYNC, with
    the start and end time of the run; its error code is 0, 1 or 2; the
    success page is rendered exactly when the code is 0, and a run that is
    not a success and wrote code 2 has called no upload. *)
Theorem sync_writes_one_audit_row (w : World) (db : Database) :
  exists error_code,
    sync_history (database_after (sync w db))
    = (sync_history db
       ++ [SyncHistory.mk "Storefront" (connection_start_time w) (connection_end_time w)
                          error_code SYNC 0 0])%list
    /\ (error_code = 0 \/ error_code = 1 \/ error_code = 2)
    /\ (rendered (sync w db) = sync_success <-> error_code = 0)
    /\ (error_code = 2 -> uploaded (sync w db) = None).
Proof.
  unfold sync.
  pose proof (download_and_apply_frame w db) as Hframe.
  pose proof (download_and_apply_codes w (Session.open db)) as Hcodes.
  destruct (download_and_apply w (Session.open db)) as [s error_code].
  simpl in Hframe, Hcodes. apply session_frame_history in Hframe.
  destruct (Z.eqb_spec error_code 0) as [Hzero|Hnonzero]; cbn [negb].
  - subst error_code.
    destruct (result_truthy (upload_data (post_response w))); cbn [negb].
    + exists 0. unfold database_after. cbn [final rendered uploaded].
      rewrite write_audit_committed. cbn [sync_history with_sync_history].
      destruct (@reset_flags_history (sync_history db) w
                  (build_sync_data (Session.working s)) s Hframe) as [_ ->].
      repeat split; intros; auto; try discriminate; try congruence; try lia.
    + exists 1. unfold database_after. cbn [final rendered uploaded].
      rewrite write_audit_committed. cbn [sync_history with_sync_history].
      destruct Hframe as [_ ->].
      repeat split; intros; auto; try discriminate; try congruence; try lia.
  - exists error_code. unfold database_after. cbn [final rendered uploaded].
    rewrite write_audit_committed. cbn [sync_history with_sync_history].
    destruct Hframe as [_ ->].
    repeat split; intros; auto; try discriminate; try congruence; try lia.
Qed.

(** X12.  The purchase history cannot be stored: the download answers 200
    with at least one purchase and the database raises in
    [update_purchase_data].  The run writes error code 2, calls no upload
    and renders the failure page; the purchase history gets no row.  The
    stock effects of the batch are applied all the same: the database after
    the run is what [update_stock_data] leaves of the database before it,
    plus the audit row. *)
Theorem purchase_history_failure_still_applies_stock (w : World) (db : Database)
    (text : string) (purchase : Purchase.t) (rest : list Purchase.t) :
  get_response w = Responded 200 text (purchase :: rest) ->
  purchase_fault w <> NoFault ->
  let run := sync w db in
  let applied :=
    Session.working
      (fst (update_stock_data (apply_time w) (stock_faults w) (purchase :: rest)
              (Session.open db))) in
  rendered run = sync_failure
  /\ uploaded run = None
  /\ database_after run
     = with_sync_history
         (sync_history db
          ++ [sync_record (connection_start_time w) (connection_end_time w) 2]) applied
  /\ purchase_history (database_after run) = purchase_history db.
Proof.
  intros Hget Hfault.
  destruct (update_stock_data_outside_units (apply_time w) (stock_faults w)
              (purchase :: rest) db) as [_ Hview].
  pose proof (f_equal (fun t => snd (fst (snd t))) Hview) as Hpurchases.
  pose proof (f_equal (fun t => snd (snd t)) Hview) as Hhistory.
  unfold outside_units, ledger in Hpurchases, Hhistory.
  cbn [fst snd] in Hpurchases, Hhistory. clear Hview.
  unfold sync, download_and_apply. rewrite Hget.
  cbn [download_data Z.eqb Pos.eqb list_truthy].
  assert (Hstore : update_purchase_data (apply_time w) (purchase_fault w) (purchase :: rest)
                     (Session.open db) = (Session.open db, false)).
  { unfold update_purchase_data. destruct (purchase_fault w); [congruence| |]; reflexivity. }
  rewrite Hstore.
  destruct (update_stock_data (apply_time w) (stock_faults w) (purchase :: rest)
              (Session.open db)) as [s2 applied].
  cbn [fst snd] in *. cbn [negb tuple3_truthy Z.eqb]. unfold database_after.
  cbn [final rendered uploaded]. rewrite write_audit_committed.
  rewrite Hhistory. repeat split. exact Hpurchases.
Qed.

Lemma purchase_history_failure_still_applies_stock_witness :
  let w := mkWorld (Responded 200 "ok" [Scenario.order "P1" "A001" 3]) Scenario.accepted
                   CommitFault [] NoFault NoFault NoFault NoFault 100 101 102 in
  let run := sync w Scenario.warehouse in
  rendered run = sync_failure
  /\ uploaded run = None
  /\ map Item.units_in_stock (items (database_after run)) = [7]
  /\ purchase_history (database_after run) = [].
Proof.
  destruct (@purchase_history_failure_still_applies_stock
              (mkWorld (Responded 200 "ok" [Scenario.order "P1" "A001" 3]) Scenario.accepted
                       CommitFault [] NoFault NoFault NoFault NoFault 100 101 102)
              Scenario.warehouse "ok" (Scenario.order "P1" "A001" 3) [] eq_refl)
    as (Hpage & Hup & Hdb & Hhist); [discriminate|].
  split; [exact Hpage | split; [exact Hup | split; [now rewrite Hdb | exact Hhist]]].
Defined.

(** X13.  An empty download is no failure: when the store answers 200 with
    no purchase, nothing is applied, the run goes on to the upload with the
    deltas of the database as it found it, and if that push is not accepted
    the database is left as it was but for the audit row with code 1. *)
Theorem empty_download_uploads_current_deltas (w : World) (db : Database) (text : string) :
  get_response w = Responded 200 text [] ->
  let run := sync w db in
  uploaded run = Some (build_sync_data db)
  /\ (result_truthy (upload_data (post_response w)) = false ->
      rendered run = sync_failure
      /\ database_after run
         = with_sync_history
             (sync_history db
              ++ [sync_record (connection_start_time w) (connection_end_time w) 1]) db).
Proof.
  intros Hget. unfold sync, download_and_apply. rewrite Hget.
  cbn [download_data Z.eqb Pos.eqb list_truthy negb].
  destruct (result_truthy (upload_data (post_response w))); cbn [negb].
  - split; [reflexivity | discriminate].
  - split; [reflexivity|]. intros _. split; reflexivity.
Qed.

Lemma empty_download_uploads_current_deltas_witness :
  let w := Scenario.world (Responded 200 "[]" []) Timeout [] in
  let run := sync w Scenario.warehouse_pending in
  uploaded run = Some (build_sync_data Scenario.warehouse_pending)
  /\ rendered run = sync_failure
  /\ database_after run
     = with_sync_history [sync_record 100 102 1] Scenario.warehouse_pending.
Proof.
  destruct (@empty_download_uploads_current_deltas
              (Scenario.world (Responded 200 "[]" []) Timeout [])
              Scenario.warehouse_pending "[]" eq_refl) as [Hup Hfail].
  destruct (Hfail eq_refl) as [Hpage Hdb].
  split; [exact Hup | split; [exact Hpage | exact Hdb]].
Defined.

(** ** The store reset *)

Lemma NoDup_map_same {A : Type} (key : A -> string) (l : list A) (x y : A) :
  NoDup (map key l) -> In x l -> In y l -> key x = key y -> x = y.
Proof.
  induction l as [|a r IH]; simpl; [contradiction|].
  intros Hnodup Hx Hy Hkey. inversion Hnodup as [|k ks Hnotin Hrest]; subst.
  destruct Hx as [->|Hx], Hy as [->|Hy]; auto.
  - exfalso. apply Hnotin. rewrite Hkey. now apply in_map.
  - exfalso. apply Hnotin. rewrite <- Hkey. now apply in_map.
Qed.

Lemma carries_code_project (attributes : list string) (c : string) (j : Item.t) :
  existsb (String.eqb "code") attributes = true ->
  carries_code c (project attributes j) = true -> c = Item.code j.
Proof.
  intros Hattr. unfold carries_code. rewrite project_get, Hattr. cbn.
  apply String.eqb_eq.
Qed.

(** With pairwise different codes, the rows a delivered selection clears are
    the rows selected. *)
Lemma cleared_rows_selection (attributes : list string) (f : Item.t -> bool)
    (l : list Item.t) :
  existsb (String.eqb "code") attributes = true ->
  NoDup (map Item.code l) ->
  cleared_rows Item.code (map (project attributes) (filter f l)) l
  = map (fun i => if f i then Item.set_requires_sync false i else i) l.
Proof.
  intros Hattr Hnodup. unfold cleared_rows. apply map_ext_in. intros i Hin.
  destruct (f i) eqn:Hf.
  - rewrite (selected_row_carried Item.code attributes f l i); try assumption;
      [reflexivity | now apply project_carries_code].
  - destruct (existsb (carries_code (Item.code i))
                      (map (project attributes) (filter f l))) eqn:Hex; [|reflexivity].
    exfalso. apply existsb_exists in Hex. destruct Hex as (x & Hx & Hcarried).
    apply in_map_iff in Hx. destruct Hx as (j & <- & Hj).
    apply filter_In in Hj. destruct Hj as [Hj Hfj].
    apply carries_code_project in Hcarried; [|exact Hattr].
    rewrite (NoDup_map_same Item.code l i j Hnodup Hin Hj Hcarried) in Hf. congruence.
Qed.

Lemma reset_filters_for_sale_in_stock (i : Item.t) :
  advanced_filter reset_filters i = for_sale_in_stock i.
Proof. unfold for_sale_in_stock. cbn. now rewrite andb_true_r. Qed.

(** X14.  The wipe fails: on a status other than 200 the reset writes one
    audit row of type RESET with error code 1, on a connection error one
    with error code 2; in both cases nothing else of the database changes
    and nothing is uploaded.  On any other exception of the request the view
    ends without an audit row. *)
Theorem failed_wipe_is_audited (w : ResetWorld) (db : Database) :
  let audited := fun error_code message =>
    Some (mkResetRun
            (Session.open
               (with_sync_history
                  (sync_history db
                   ++ [reset_record (reset_start_time w) (reset_end_time w) error_code])
                  db))
            message None) in
  (forall status text body,
      wipe_response w = Responded status text body -> status <> 200 ->
      webshop_reset w db = audited 1 wipe_non_200_message)
  /\ (wipe_response w = ConnectionError ->
      webshop_reset w db = audited 2 wipe_unreachable_message)
  /\ (wipe_response w = Timeout \/ (exists e, wipe_response w = RequestException e) ->
      webshop_reset w db = None).
Proof.
  unfold webshop_reset, wipe_store. repeat split.
  - intros status text body -> Hne. apply Z.eqb_neq in Hne. rewrite Hne. reflexivity.
  - intros ->. reflexivity.
  - intros [->|[e ->]]; reflexivity.
Qed.

Lemma failed_wipe_is_audited_witness :
  webshop_reset (mkResetWorld (Responded 503 "down" tt) Scenario.accepted NoFault 100 102)
                Scenario.warehouse_pending
  = Some (mkResetRun
            (Session.open
               (with_sync_history [reset_record 100 102 1] Scenario.warehouse_pending))
            wipe_non_200_message None).
Proof.
  apply (proj1 (@failed_wipe_is_audited
                  (mkResetWorld (Responded 503 "down" tt) Scenario.accepted NoFault 100 102)
                  Scenario.warehouse_pending) 503 "down" tt eq_refl).
  discriminate.
Defined.

Lemma database_by_items (d d' : Database) (l : list Item.t) :
  items d' = l -> beside_items d' = beside_items d -> d' = with_items l d.
Proof.
  destruct d, d'. unfold beside_items, with_items. simpl.
  intros -> H. injection H as -> -> -> ->. reflexivity.
Qed.

(** X15.  The restock push is not accepted after a wipe that succeeded: the
    reset writes one audit row of type RESET with error code 1 and changes
    nothing else, no flag either.  What it tried to upload is every item
    that is for sale with stock on hand, pending or not. *)
Theorem failed_restock_changes_nothing (w : ResetWorld) (db : Database)
    (text : string) (body : unit) :
  wipe_response w = Responded 200 text body ->
  result_truthy (upload_data (restock_response w)) = false ->
  webshop_reset w db
  = Some (mkResetRun
            (Session.open
               (with_sync_history
                  (sync_history db
                   ++ [reset_record (reset_start_time w) (reset_end_time w) 1]) db))
            restock_failed_message
            (Some (map (project stock_updates_attributes)
                       (filter for_sale_in_stock (items db))))).
Proof.
  intros Hwipe Hfalse. unfold webshop_reset, wipe_store. rewrite Hwipe.
  cbn [Z.eqb Pos.eqb negb]. rewrite Hfalse. cbn [negb].
  unfold prepare_updates_advanced.
  rewrite (filter_ext _ _ reset_filters_for_sale_in_stock). reflexivity.
Qed.

Lemma failed_restock_changes_nothing_witness :
  webshop_reset (mkResetWorld (Responded 200 "ok" tt) (Responded 200 "null" JNull)
                              NoFault 100 102)
                Scenario.warehouse_pending
  = Some (mkResetRun
            (Session.open
               (with_sync_history [reset_record 100 102 1] Scenario.warehouse_pending))
            restock_failed_message
            (Some (map (project stock_updates_attributes)
                       (filter for_sale_in_stock (items Scenario.warehouse_pending))))).
Proof.
  apply (@failed_restock_changes_nothing
           (mkResetWorld (Responded 200 "ok" tt) (Responded 200 "null" JNull)
                         NoFault 100 102)
           Scenario.warehouse_pending "ok" tt); reflexivity.
Defined.

(** X16.  A reset that goes through, the codes of the items pairwise
    different and the flag reset meeting no database fault: the flag is
    cleared on exactly the items that are for sale with stock on hand, and
    every other item keeps its flag: an item that is pending because it went
    out of stock or off sale stays pending.  One audit row of type RESET
    with code 0 is written and nothing else changes. *)
Theorem reset_clears_for_sale_in_stock_only (w : ResetWorld) (db : Database)
    (text : string) (body : unit) :
  wipe_response w = Responded 200 text body ->
  result_truthy (upload_data (restock_response w)) = true ->
  restock_flags_fault w = NoFault ->
  NoDup (map Item.code (items db)) ->
  webshop_reset w db
  = Some (mkResetRun
            (Session.open
               (with_sync_history
                  (sync_history db
                   ++ [reset_record (reset_start_time w) (reset_end_time w) 0])
                  (with_items
                     (map (fun i => if for_sale_in_stock i
                                    then Item.set_requires_sync false i else i)
                          (items db))
                     db)))
            reset_ok_message
            (Some (map (project stock_updates_attributes)
                       (filter for_sale_in_stock (items db))))).
Proof.
  intros Hwipe Htrue Hfault Hnodup. unfold webshop_reset, wipe_store. rewrite Hwipe.
  cbn [Z.eqb Pos.eqb negb]. rewrite Htrue, Hfault. cbn [negb].
  unfold prepare_updates_advanced. cbn [query_all Item_Model Session.working Session.open].
  rewrite (filter_ext _ _ reset_filters_for_sale_in_stock).
  set (item_updates := map (project stock_updates_attributes)
                           (filter for_sale_in_stock (items db))).
  destruct (reset_items_rows item_updates (Session.open db)) as (_ & Hrows & Hrest).
  cbv zeta in Hrows, Hrest. cbn [Session.working Session.open] in Hrows, Hrest.
  rewrite (@item_clear_flags_of_cleared item_updates _ Hnodup) in Hrows.
  unfold item_updates in Hrows at 2.
  rewrite cleared_rows_selection in Hrows by (try assumption; reflexivity).
  pose proof (database_by_items Hrows Hrest) as Hdb.
  unfold write_reset_audit, Session.commit, Session.add_sync_record, Session.on_working.
  cbn [Session.working Session.committed]. rewrite Hdb. reflexivity.
Qed.

Lemma reset_clears_for_sale_in_stock_only_witness :
  webshop_reset (mkResetWorld (Responded 200 "ok" tt) Scenario.accepted NoFault 100 102)
                Scenario.warehouse_pending
  = Some (mkResetRun
            (Session.open
               (with_sync_history [reset_record 100 102 0]
                  (with_items [Scenario.widget] Scenario.warehouse_pending)))
            reset_ok_message
            (Some (map (project stock_updates_attributes)
                       [Item.set_requires_sync true Scenario.widget]))).
Proof.
  apply (@reset_clears_for_sale_in_stock_only
           (mkResetWorld (Responded 200 "ok" tt) Scenario.accepted NoFault 100 102)
           Scenario.warehouse_pending "ok" tt);
    try reflexivity.
  apply NoDup_cons; [intros [] | apply NoDup_nil].
Defined.

(** ** Building the URL of an endpoint *)

Lemma rstrip_slash_append_empty (a s : string) :
  rstrip_slash s = EmptyString -> rstrip_slash (a ++ s) = rstrip_slash a.
Proof. intros Hs. induction a as [|c a IH]; simpl; [exact Hs | now rewrite IH]. Qed.

Lemma rstrip_slash_append (a s : string) :
  rstrip_slash s <> EmptyString -> rstrip_slash (a ++ s) = (a ++ rstrip_slash s)%string.
Proof.
  intros Hs. induction a as [|c a IH]; simpl; [reflexivity|].
  rewrite IH. destruct (a ++ rstrip_slash s)%string eqn:Happ; [|reflexivity].
  destruct a; simpl in Happ; [contradiction | discriminate].
Qed.

Lemma append_nonempty (a s : string) :
  s <> EmptyString -> (a ++ s)%string <> EmptyString.
Proof. destruct a; simpl; [auto | discriminate]. Qed.

Lemma rstrip_slash_append_nonempty (a s : string) :
  rstrip_slash s <> EmptyString -> rstrip_slash (a ++ s) <> EmptyString.
Proof.
  intros Hs. rewrite rstrip_slash_append by exact Hs. now apply append_nonempty.
Qed.

Lemma rstrip_slash_no_trailing (s : string) :
  forall t : string, rstrip_slash s <> (t ++ "/")%string.
Proof.
  induction s as [|a r IH]; intros t; simpl.
  - destruct t; discriminate.
  - destruct (rstrip_slash r) as [|b r'] eqn:Hr.
    + destruct (Ascii.eqb_spec a "/"%char) as [->|Hne].
      * destruct t; discriminate.
      * destruct t as [|c t]; simpl; [congruence|]. destruct t; discriminate.
    + destruct t as [|c t]; simpl; [discriminate|].
      intros H. injection H as _ H. now apply (IH t).
Qed.

(** X17.  [build_api_url] removes the trailing slashes of the URL and keeps
    the rest as given: with an endpoint that is more than slashes, the URL
    is protocol, [://], address, [:], port, [/] and the endpoint without its
    trailing slashes (an endpoint that starts with a slash gives a double
    slash); with an empty or all-slash endpoint the separating slash goes as
    well.  The URL never ends with a slash. *)
Theorem build_api_url_strips_trailing_slashes (config : Config)
    (protocol ipv4_address port api_endpoint : string) :
  let url := build_api_url config (Some protocol) (Some ipv4_address) (Some port)
                           (Some api_endpoint) in
  (rstrip_slash api_endpoint <> EmptyString ->
   url = (protocol ++ "://" ++ ipv4_address ++ ":" ++ port ++ "/"
          ++ rstrip_slash api_endpoint)%string)
  /\ (rstrip_slash api_endpoint = EmptyString ->
      url = rstrip_slash (protocol ++ "://" ++ ipv4_address ++ ":" ++ port))
  /\ (forall t : string, url <> (t ++ "/")%string).
Proof.
  unfold build_api_url. repeat split.
  - intros Hne.
    repeat (rewrite rstrip_slash_append
              by (repeat apply rstrip_slash_append_nonempty; exact Hne)).
    reflexivity.
  - intros Hempty.
    assert (Hport : rstrip_slash (port ++ "/" ++ api_endpoint) = rstrip_slash port).
    { apply rstrip_slash_append_empty. simpl. now rewrite Hempty. }
    set (tail := (port ++ "/" ++ api_endpoint)%string) in *.
    assert (Hcong : forall a x y, rstrip_slash x = rstrip_slash y ->
                                  rstrip_slash (a ++ x) = rstrip_slash (a ++ y)).
    { intros a x y Hxy. induction a as [|c a IH]; simpl; [exact Hxy | now rewrite IH]. }
    repeat apply Hcong. exact Hport.
  - apply rstrip_slash_no_trailing.
Qed.

Lemma build_api_url_strips_trailing_slashes_witness :
  build_api_url shipped_config (Some "https") (Some "127.0.0.1") (Some "5050")
                (Some "/api/purchases")
  = "https://127.0.0.1:5050//api/purchases".
Proof.
  apply (proj1 (@build_api_url_strips_trailing_slashes shipped_config "https" "127.0.0.1"
                  "5050" "/api/purchases")).
  discriminate.
Defined.

(** ** What the reconciler reports *)

Lemma set_single_value_fold_counts {R : Type} `{Model R}
    (key_col_target key_col_input field : string) (new_value : pyval)
    (items_to_update : list pydict) :
  forall st : reconciler_state,
    let st' := fold_left (set_single_value_step (R := R) key_col_target key_col_input
                                                field new_value)
                         items_to_update st in
    (records_updated st' + records_not_found st'
     = records_updated st + records_not_found st
       + List.length (filter (fun item => is_some (dict_get key_col_input item))
                             items_to_update))%nat.
Proof.
  induction items_to_update as [|item r IH]; intros st; simpl; [lia|].
  rewrite IH. unfold set_single_value_step.
  destruct (dict_get key_col_input item) as [v|]; simpl; [|lia].
  destruct (find _ _); simpl; lia.
Qed.

(** X18.  What [set_single_value_on_list] reports, for any table, key and
    field.  Without a database fault the result is a success, and the
    updated and not-found counts add up to the number of delivered
    dictionaries that have the key; the dictionaries without the key are
    counted nowhere in the result, whose erroneous count is 0.  With a fault
    the result is a failure with all counts 0 and the session is rolled
    back. *)
Theorem set_single_value_on_list_report {R : Type} `{Model R} (fault : db_fault)
    (key_col_target : string) (items_to_update : list pydict)
    (key_col_input field : string) (new_value : pyval) (s : Session.t) :
  let r := set_single_value_on_list (R := R) fault key_col_target items_to_update
                                    key_col_input field new_value s in
  match fault with
  | NoFault =>
      OperationResult.result_code (snd r) = OperationResult.SUCCESS
      /\ (OperationResult.updated_count (snd r) + OperationResult.not_found_count (snd r)
          = List.length (filter (fun item => is_some (dict_get key_col_input item))
                                items_to_update))%nat
      /\ OperationResult.erroneous_count (snd r) = 0%nat
  | QueryFault | CommitFault =>
      OperationResult.result_code (snd r) = OperationResult.FAILURE
      /\ OperationResult.updated_count (snd r) = 0%nat
      /\ OperationResult.not_found_count (snd r) = 0%nat
      /\ fst r = Session.rollback s
  end.
Proof.
  unfold set_single_value_on_list. destruct fault; simpl; try (now repeat split).
  repeat split.
  now rewrite (set_single_value_fold_counts key_col_target key_col_input field new_value
                 items_to_update (mkReconciler s 0 0 0)).
Qed.

(** ** Views on one row *)

Lemma nth_error_update_nth {A : Type} (f : A -> A) (l : list A) :
  forall (n : nat) (x : A),
    nth_error l n = Some x -> nth_error (update_nth n f l) n = Some (f x).
Proof.
  induction l as [|a r IH]; intros [|n] x; simpl; try discriminate.
  - now intros [= ->].
  - apply IH.
Qed.

Lemma update_nth_same {A : Type} (f : A -> A) (l : list A) :
  forall (n : nat) (x : A),
    nth_error l n = Some x -> f x = x -> update_nth n f l = l.
Proof.
  induction l as [|a r IH]; intros [|n] x; simpl; try discriminate.
  - intros [= ->] ->. reflexivity.
  - intros Hn Hf. now rewrite (IH n x).
Qed.

(** X19.  Resolving an issue, the commit not failing: the issue at that
    position is resolved afterwards, with the time of the request as solved
    time if it was open and with the solved time it had if it was resolved
    already; resolving it once more changes nothing. *)
Theorem resolve_issue_view_once (now later : timestamp) (issue_id : nat) (db : Database)
    (issue : Issue.t) :
  nth_error (issues db) issue_id = Some issue ->
  exists db' issue',
    resolve_issue_view now NoFault issue_id db = Redirected true db'
    /\ nth_error (issues db') issue_id = Some issue'
    /\ is_resolved issue' = true
    /\ Issue.solved_time issue'
       = (if is_resolved issue then Issue.solved_time issue else Some now)
    /\ resolve_issue_view later NoFault issue_id db' = Redirected true db'.
Proof.
  intros Hnth. unfold resolve_issue_view. rewrite Hnth.
  destruct (is_resolved issue) eqn:Hres; simpl.
  - exists db, issue. rewrite Hnth, Hres. simpl. repeat split; assumption.
  - exists (with_issues (update_nth issue_id (resolve_issue now) (issues db)) db),
           (resolve_issue now issue).
    simpl. rewrite (nth_error_update_nth _ _ _ Hnth). simpl.
    repeat split.
Qed.

Lemma resolve_issue_view_once_witness :
  exists db' issue',
    resolve_issue_view 200 NoFault 0
      (mkDatabase [] [] [] [new_issue 101 "Item with code Z999 and name Widget not found."] [])
    = Redirected true db'
    /\ nth_error (issues db') 0 = Some issue'
    /\ is_resolved issue' = true
    /\ Issue.solved_time issue' = Some 200
    /\ resolve_issue_view 300 NoFault 0 db' = Redirected true db'.
Proof.
  apply (@resolve_issue_view_once 200 300 0
           (mkDatabase [] [] []
              [new_issue 101 "Item with code Z999 and name Widget not found."] [])
           (new_issue 101 "Item with code Z999 and name Widget not found.")).
  reflexivity.
Defined.

Lemma find_app_last {A : Type} (p : A -> bool) (l : list A) (x : A) :
  p x = true -> exists y, find p (l ++ [x]) = Some y /\ p y = true.
Proof.
  intros Hx. induction l as [|a r IH]; simpl.
  - rewrite Hx. now exists x.
  - destruct (p a) eqn:Ha; [now exists a | exact IH].
Qed.

(** X20.  Deleting an item that has a vendor, the commit not failing: the
    item leaves the items table and a tombstone with its code and name,
    marked for sync, is appended to the deleted items; the next sync
    delivers that tombstone in its [deleted] list; and a purchase of that
    code that arrives afterwards takes the deleted-item branch: it raises
    the deleted-item issue and touches no stock.  When the commit fails the
    database is as before. *)
Theorem delete_item_leaves_tombstone (now later : timestamp) (user_name : string)
    (item_id : nat) (db : Database) (item : Item.t) (vendor : Vendor.t)
    (purchase : Purchase.t) (n : nat) :
  nth_error (items db) item_id = Some item ->
  Item.vendor item = Some vendor ->
  Purchase.code purchase = Item.code item ->
  let tombstone := DeletedItem.mk (Item.code item) (Item.name item) user_name now true
                                  (Vendor.name vendor) None in
  exists db',
    delete_item now user_name NoFault item_id db = Redirected true db'
    /\ items db' = remove_nth item_id (items db)
    /\ deleted_items db' = (deleted_items db ++ [tombstone])%list
    /\ In (project ["code"; "name"] tombstone) (deleted (build_sync_data db'))
    /\ (exists d,
          find_deleted_item (Item.code item) db' = Some d
          /\ stock_step later NoFault purchase (mkApplier (Session.open db') n)
             = (Next,
                mkApplier
                  (Session.add_issue
                     (new_issue later (deleted_message (Item.code item) d))
                     (Session.open db'))
                  (S n)))
    /\ delete_item now user_name CommitFault item_id db = Redirected false db.
Proof.
  intros Hnth Hvendor Hcode tombstone. unfold delete_item. rewrite Hnth, Hvendor.
  set (db' := with_items (remove_nth item_id (items db))
                (with_deleted_items (deleted_items db ++ [tombstone]) db)).
  exists db'. split; [reflexivity|].
  split; [reflexivity|]. split; [reflexivity|]. split; [|split; [|reflexivity]].
  - apply in_map. apply filter_In. split; [|reflexivity].
    apply in_or_app. right. now left.
  - destruct (@find_app_last DeletedItem.t
                (fun i => String.eqb (DeletedItem.code i) (Item.code item))
                (deleted_items db) tombstone (String.eqb_refl _)) as (d & Hfind & _).
    assert (Hfd : find_deleted_item (Item.code item) db' = Some d) by exact Hfind.
    exists d. split; [exact Hfd|].
    unfold stock_step. cbn [session Session.working Session.open].
    rewrite Hcode, Hfd. destruct (find_item (Item.code item) db'); reflexivity.
Qed.

Lemma delete_item_leaves_tombstone_witness :
  exists db',
    delete_item 150 "operator" NoFault 0 Scenario.warehouse = Redirected true db'
    /\ items db' = []
    /\ deleted_items db' = [DeletedItem.mk "A001" "Widget" "operator" 150 true "Acme" None]
    /\ In (project ["code"; "name"]
                   (DeletedItem.mk "A001" "Widget" "operator" 150 true "Acme" None))
          (deleted (build_sync_data db')).
Proof.
  destruct (@delete_item_leaves_tombstone 150 160 "operator" 0 Scenario.warehouse
              Scenario.widget (Vendor.mk "Acme") (Scenario.order "P1" "A001" 1) 0
              eq_refl eq_refl eq_refl) as (db' & Hview & Hitems & Hdeleted & Hin & _).
  exists db'. repeat split; assumption.
Defined.

(** ** The payload, entry by entry *)

(** X21.  The payload of a sync in closed form.  [deleted] has the code and
    the name of every pending deleted item; [not_for_sale] and
    [out_of_stock] have the code and the name of the pending items that are
    not for sale, respectively for sale with no stock; [stock_updates] has,
    for every pending item for sale with stock on hand, its code, name,
    description, the name of its vendor ([None] for an item without
    vendor), price and quantity, under these six keys in this order.  Rows
    come in table order. *)
Theorem build_sync_data_entries (d : Database) :
  build_sync_data d
  = mkPayload
      (map (fun x => [("code", PStr (DeletedItem.code x));
                      ("name", PStr (DeletedItem.name x))])
           (filter DeletedItem.requires_sync (deleted_items d)))
      (map (fun i => [("code", PStr (Item.code i)); ("name", PStr (Item.name i))])
           (filter (fun i => Item.requires_sync i
                             && ItemStatus_eqb (Item.status i) NOT_FOR_SALE)
                   (items d)))
      (map (fun i => [("code", PStr (Item.code i)); ("name", PStr (Item.name i))])
           (filter (fun i => Item.requires_sync i
                             && ItemStatus_eqb (Item.status i) FOR_SALE
                             && (Item.units_in_stock i <=? 0))
                   (items d)))
      (map (fun i => [("code", PStr (Item.code i));
                      ("name", PStr (Item.name i));
                      ("description", py_of_option PStr (Item.description i));
                      ("vendor.name",
                       py_of_option (fun v => PStr (Vendor.name v)) (Item.vendor i));
                      ("price_per_unit", PFloat (Item.price_per_unit i));
                      ("units_in_stock", PInt (Item.units_in_stock i))])
           (filter (fun i => Item.requires_sync i
                             && ItemStatus_eqb (Item.status i) FOR_SALE
                             && (Item.units_in_stock i >? 0))
                   (items d))).
Proof.
  rewrite build_sync_data_by_category. f_equal.
  - rewrite (filter_ext _ _ (in_category_deleted Deleted)). reflexivity.
  - rewrite (filter_ext _ _ (in_category_item NotForSale)). reflexivity.
  - rewrite (filter_ext _ _ (in_category_item OutOfStock)). reflexivity.
  - rewrite (filter_ext _ _ (in_category_item StockUpdates)).
    apply map_ext. intros i. cbn. destruct (Item.vendor i); reflexivity.
Qed.
